(** * GPT Researcher MCP server: handlers, registry and dispatch

    A shallow embedding of [gpt_researcher_mcp.py].  The six tool
    functions are embedded as computations in a small state-and-exception
    monad; the [gpt_researcher] package they call is an interface whose
    behaviour is left arbitrary.  The FastMCP registry, validator and
    dispatcher, which the module only imports, follow the specification
    and are marked as such. *)

From Stdlib Require Import String Ascii List ZArith Bool Lia DecimalString.
Import ListNotations.

Set Warnings "-register-all".

Local Open Scope list_scope.
Local Open Scope string_scope.

(** ** Python values *)

(** The values that flow through the tool functions: [None], booleans,
    integers, strings, lists and string-keyed dictionaries.  A dictionary
    keeps its insertion order, as Python's does. *)
Inductive value : Type :=
| VNone
| VBool (b : bool)
| VInt (z : Z)
| VStr (s : string)
| VList (l : list value)
| VDict (d : list (string * value)).

Definition dict : Type := list (string * value).

(** [d[k]] / [d.get(k)]: the first binding of [k]. *)
Fixpoint dict_get (k : string) (d : dict) : option value :=
  match d with
  | [] => None
  | (k', v) :: d' => if String.eqb k k' then Some v else dict_get k d'
  end.

(** [k in d] *)
Definition dict_mem (k : string) (d : dict) : bool :=
  match dict_get k d with Some _ => true | None => false end.

(** [d[k] = v]: overwrite in place, or append a new key at the end. *)
Fixpoint dict_set (k : string) (v : value) (d : dict) : dict :=
  match d with
  | [] => [(k, v)]
  | (k', v') :: d' =>
      if String.eqb k k' then (k, v) :: d' else (k', v') :: dict_set k v d'
  end.

(** [bool(v)] *)
Definition truthy (v : value) : bool :=
  match v with
  | VNone => false
  | VBool b => b
  | VInt z => negb (Z.eqb z 0)
  | VStr s => negb (String.eqb s "")
  | VList l => match l with [] => false | _ => true end
  | VDict d => match d with [] => false | _ => true end
  end.

(** [type(v).__name__] *)
Definition type_name (v : value) : string :=
  match v with
  | VNone => "NoneType"
  | VBool _ => "bool"
  | VInt _ => "int"
  | VStr _ => "str"
  | VList _ => "list"
  | VDict _ => "dict"
  end.

(** ** Exceptions *)

(** Where a raised exception sits in Python's hierarchy, as far as the
    [except] clauses of the module can tell: an [ImportError] (or a
    subclass such as [ModuleNotFoundError]), any other [Exception], or a
    [BaseException] that is not an [Exception] ([KeyboardInterrupt],
    [SystemExit]). *)
Inductive exn_class : Type :=
| ImportError
| Exception
| BaseException.

Record exn : Type := mk_exn {
  exn_cls : exn_class;
  exn_str : string          (* str(e) *)
}.

(** [isinstance(e, cls)], for the classes named in [except] clauses. *)
Definition isinstance (e : exn) (cls : exn_class) : bool :=
  match cls, exn_cls e with
  | BaseException, _ => true
  | Exception, (ImportError | Exception) => true
  | Exception, BaseException => false
  | ImportError, ImportError => true
  | ImportError, _ => false
  end.

Inductive result (A : Type) : Type :=
| Ok (a : A)
| Raise (e : exn).
Arguments Ok {A} a.
Arguments Raise {A} e.

(** [os.environ] *)
Definition environ_t : Type := list (string * string).

Fixpoint environ_get (k : string) (env : environ_t) : option string :=
  match env with
  | [] => None
  | (k', v) :: env' => if String.eqb k k' then Some v else environ_get k env'
  end.

Fixpoint environ_set (k v : string) (env : environ_t) : environ_t :=
  match env with
  | [] => [(k, v)]
  | (k', v') :: env' =>
      if String.eqb k k' then (k, v) :: env' else (k', v') :: environ_set k v env'
  end.

(** ** The computation monad *)

(** A computation reads and updates a world and either returns or raises.
    The world reached when an exception is raised is kept: what a Python
    function did before it raised stays done. *)
Module Comp.

Definition M (W A : Type) : Type := W -> result A * W.

Definition ret {W A} (a : A) : M W A := fun w => (Ok a, w).

Definition raise {W A} (e : exn) : M W A := fun w => (Raise e, w).

Definition bind {W A B} (c : M W A) (k : A -> M W B) : M W B :=
  fun w =>
    match c w with
    | (Ok a, w') => k a w'
    | (Raise e, w') => (Raise e, w')
    end.

(** [try: body except ...:] with the clauses given as one function: the
    first clause that matches [e] gives [Some] of its block, and [None]
    lets [e] propagate. *)
Definition try_except {W A} (body : M W A) (clauses : exn -> option (M W A))
  : M W A :=
  fun w =>
    match body w with
    | (Ok a, w') => (Ok a, w')
    | (Raise e, w') =>
        match clauses e with
        | Some block => block w'
        | None => (Raise e, w')
        end
    end.

Definition lift {W A} (r : result A) : M W A := fun w => (r, w).

(** [if c: body] with no [else]. *)
Definition when {W} (c : bool) (body : M W unit) : M W unit :=
  if c then body else ret tt.

End Comp.

Declare Scope comp_scope.
Delimit Scope comp_scope with comp.
Notation "x <- c ;; k" := (Comp.bind c (fun x => k))
  (at level 61, c at next level, right associativity) : comp_scope.
Notation "c ;;; k" := (Comp.bind c (fun _ => k))
  (at level 61, right associativity) : comp_scope.

Local Open Scope comp_scope.

(** ** The world of the tool functions *)

Section Tools.

(** Whatever state the [gpt_researcher] package and the interpreter's
    import system keep, and the handle of a [GPTResearcher] instance. *)
Variable LibState : Type.
Variable Researcher : Type.

Record world : Type := mk_world {
  environ : environ_t;      (* os.environ *)
  lib_state : LibState
}.

Abbreviation M := (Comp.M world).

(** What the module calls but does not define.  Every call may read and
    change the world and may raise anything. *)
Record external : Type := mk_external {
  (* from <module> import <name> *)
  import_from : string -> string -> M unit;
  (* import <module>, __import__(<module>) *)
  import_module : string -> M unit;
  (* GPTResearcher(query=, report_type=, report_source=[, mcp_configs=]) *)
  GPTResearcher :
    string -> string -> string -> option (list value) -> M Researcher;
  (* researcher.<attribute> = <value> *)
  researcher_setattr : Researcher -> string -> value -> M unit;
  (* asyncio.run(researcher.conduct_research()): the attributes of the
     object it returns *)
  run_conduct_research : Researcher -> M dict;
  (* asyncio.run(researcher.conduct_deep_research()) *)
  run_conduct_deep_research : Researcher -> M dict;
  (* asyncio.run(researcher.write_report()) *)
  run_write_report : Researcher -> M value;
  (* asyncio.run(researcher.get_timestamp()) *)
  run_get_timestamp : Researcher -> M value
}.

Variable ext : external.

(** [os.environ[k] = v]: a [ValueError] for a value with a NUL character
    in it, which the operating system cannot store. *)
Definition environ_assign (k v : string) : M unit :=
  fun w =>
    if existsb (Ascii.eqb zero) (list_ascii_of_string v)
    then (Raise (mk_exn Exception "embedded null byte"), w)
    else (Ok tt, mk_world (environ_set k v (environ w)) (lib_state w)).

(** [os.getenv(k)] *)
Definition os_getenv (k : string) : M (option string) :=
  fun w => (Ok (environ_get k (environ w)), w).

(** [getattr(obj, name, default)] on an object given by its attributes. *)
Definition getattr (obj : dict) (name : string) (default : value) : value :=
  match dict_get name obj with
  | Some v => v
  | None => default
  end.

(** [len(v)]: a [TypeError] for a value that has no length. *)
Definition py_len (v : value) : result Z :=
  match v with
  | VStr s => Ok (Z.of_nat (String.length s))
  | VList l => Ok (Z.of_nat (List.length l))
  | VDict d => Ok (Z.of_nat (List.length d))
  | _ => Raise (mk_exn Exception
                  ("object of type '" ++ type_name v ++ "' has no len()"))
  end.

(** [x or []] for an optional list. *)
Definition or_empty (x : option (list value)) : list value :=
  match x with
  | Some (v :: l) => v :: l
  | _ => []
  end.

(** *** conduct_research *)

(** The block under [try:]. *)
Definition conduct_research_try
    (query report_type report_source : string) (max_iterations : Z)
    (doc_path : option string) (retriever : string)
    (mcp_configs : option (list value)) : M dict :=
  import_from ext "gpt_researcher" "GPTResearcher" ;;;
  match doc_path with
  | Some p => Comp.when (negb (String.eqb p "")) (environ_assign "DOC_PATH" p)
  | None => Comp.ret tt
  end ;;;
  Comp.when (negb (String.eqb retriever "")) (environ_assign "RETRIEVER" retriever) ;;;
  researcher <- GPTResearcher ext query report_type report_source
                  (Some (or_empty mcp_configs)) ;;
  research_result <- run_conduct_research ext researcher ;;
  report <- run_write_report ext researcher ;;
  let citations := getattr research_result "citations" (VList []) in
  timestamp <- run_get_timestamp ext researcher ;;
  total_sources <- Comp.lift (py_len citations) ;;
  let metadata :=
    [ ("query", VStr query);
      ("report_type", VStr report_type);
      ("report_source", VStr report_source);
      ("max_iterations", VInt max_iterations);
      ("retriever", VStr retriever);
      ("timestamp", timestamp);
      ("research_steps", getattr research_result "research_steps" (VList []));
      ("total_sources", VInt total_sources) ] in
  Comp.ret
    [ ("success", VBool true);
      ("query", VStr query);
      ("report", report);
      ("citations", citations);
      ("metadata", VDict metadata);
      ("error", VNone) ].

(** The two [except] clauses, in order. *)
Definition conduct_research_except (query : string) (e : exn)
  : option (M dict) :=
  if isinstance e ImportError then
    Some (Comp.ret
      [ ("success", VBool false);
        ("query", VStr query);
        ("report", VStr "");
        ("citations", VList []);
        ("metadata", VDict []);
        ("error", VStr "GPT Researcher not installed. Install with: pip install gpt-researcher") ])
  else if isinstance e Exception then
    Some (Comp.ret
      [ ("success", VBool false);
        ("query", VStr query);
        ("report", VStr "");
        ("citations", VList []);
        ("metadata", VDict []);
        ("error", VStr ("Research failed: " ++ exn_str e)) ])
  else None.

Definition conduct_research
    (query report_type report_source : string) (max_iterations : Z)
    (doc_path : option string) (retriever : string)
    (mcp_configs : option (list value)) : M dict :=
  Comp.try_except
    (conduct_research_try query report_type report_source max_iterations
       doc_path retriever mcp_configs)
    (conduct_research_except query).

(** A keyword call [conduct_research.fn(query=..., ...)]: [None] for an
    argument the call leaves out, which then takes the default of the
    signature. *)
Record conduct_research_kwargs : Type := mk_kwargs {
  kw_query : string;
  kw_report_type : option string;
  kw_report_source : option string;
  kw_max_iterations : option Z;
  kw_doc_path : option (option string);
  kw_retriever : option string;
  kw_mcp_configs : option (option (list value))
}.

Definition or_default {A} (given : option A) (default : A) : A :=
  match given with
  | Some a => a
  | None => default
  end.

Definition conduct_research_fn (kw : conduct_research_kwargs) : M dict :=
  conduct_research
    (kw_query kw)
    (or_default (kw_report_type kw) "research_report")
    (or_default (kw_report_source kw) "web")
    (or_default (kw_max_iterations kw) 3%Z)
    (or_default (kw_doc_path kw) None)
    (or_default (kw_retriever kw) "tavily")
    (or_default (kw_mcp_configs kw) None).

(** *** research_local_documents *)

Definition research_local_documents
    (query doc_path report_type : string) : M dict :=
  conduct_research_fn
    {| kw_query := query;
       kw_report_type := Some report_type;
       kw_report_source := Some "local";
       kw_max_iterations := None;
       kw_doc_path := Some (Some doc_path);
       kw_retriever := Some "local";
       kw_mcp_configs := None |}.

(** *** hybrid_research_with_mcp *)

Definition hybrid_research_with_mcp
    (query : string) (mcp_configs : list value) (report_type : string)
  : M dict :=
  conduct_research_fn
    {| kw_query := query;
       kw_report_type := Some report_type;
       kw_report_source := Some "web";
       kw_max_iterations := None;
       kw_doc_path := None;
       kw_retriever := Some "tavily,mcp";
       kw_mcp_configs := Some (Some mcp_configs) |}.

(** *** deep_research *)

Definition deep_research_try
    (query : string) (depth breadth max_iterations : Z) : M dict :=
  import_from ext "gpt_researcher" "GPTResearcher" ;;;
  researcher <- GPTResearcher ext query "research_report" "web" None ;;
  researcher_setattr ext researcher "depth" (VInt depth) ;;;
  researcher_setattr ext researcher "breadth" (VInt breadth) ;;;
  researcher_setattr ext researcher "max_iterations" (VInt max_iterations) ;;;
  research_result <- run_conduct_deep_research ext researcher ;;
  report <- run_write_report ext researcher ;;
  let citations := getattr research_result "citations" (VList []) in
  timestamp <- run_get_timestamp ext researcher ;;
  total_sources <- Comp.lift (py_len citations) ;;
  let metadata :=
    [ ("query", VStr query);
      ("research_type", VStr "deep_research");
      ("depth", VInt depth);
      ("breadth", VInt breadth);
      ("max_iterations", VInt max_iterations);
      ("timestamp", timestamp);
      ("research_tree", getattr research_result "research_tree" (VDict []));
      ("total_sources", VInt total_sources);
      ("subtopics_explored", getattr research_result "subtopics_count" (VInt 0)) ] in
  Comp.ret
    [ ("success", VBool true);
      ("query", VStr query);
      ("report", report);
      ("citations", citations);
      ("metadata", VDict metadata);
      ("error", VNone) ].

Definition deep_research_except (query : string) (e : exn)
  : option (M dict) :=
  if isinstance e ImportError then
    Some (Comp.ret
      [ ("success", VBool false);
        ("query", VStr query);
        ("report", VStr "");
        ("citations", VList []);
        ("metadata", VDict []);
        ("error", VStr "GPT Researcher not installed. Install with: pip install gpt-researcher") ])
  else if isinstance e Exception then
    Some (Comp.ret
      [ ("success", VBool false);
        ("query", VStr query);
        ("report", VStr "");
        ("citations", VList []);
        ("metadata", VDict []);
        ("error", VStr ("Deep research failed: " ++ exn_str e)) ])
  else None.

Definition deep_research
    (query : string) (depth breadth max_iterations : Z) : M dict :=
  Comp.try_except
    (deep_research_try query depth breadth max_iterations)
    (deep_research_except query).

(** *** get_research_capabilities *)

Definition strs (l : list string) : value := VList (map VStr l).

Definition capabilities : dict :=
  [ ("supported_report_types",
       strs ["research_report"; "resource_report"; "outline_report"]);
    ("supported_sources", strs ["web"; "local"; "hybrid"]);
    ("supported_document_formats",
       strs ["PDF"; "TXT"; "CSV"; "Excel"; "Markdown"; "PowerPoint";
             "Word documents"]);
    ("available_retrievers", strs ["tavily"; "mcp"; "local"]);
    ("deep_research_available", VBool true);
    ("mcp_integration_available", VBool true);
    ("local_document_support", VBool true);
    ("citation_support", VBool true);
    ("multi_agent_support", VBool true);
    ("configuration_options",
       VDict
         [ ("max_iterations", VStr "1-10");
           ("depth", VStr "1-5 (for deep research)");
           ("breadth", VStr "1-10 (for deep research)");
           ("report_types",
              strs ["research_report"; "resource_report"; "outline_report"]);
           ("sources", strs ["web"; "local"; "hybrid"]) ]) ].

(** Only [ImportError] is caught here; anything else the import raises
    leaves the function. *)
Definition get_research_capabilities : M dict :=
  Comp.try_except
    (import_from ext "gpt_researcher" "GPTResearcher" ;;;
     Comp.ret
       [ ("success", VBool true);
         ("capabilities", VDict capabilities);
         ("error", VNone) ])
    (fun e =>
       if isinstance e ImportError then
         Some (Comp.ret
           [ ("success", VBool false);
             ("capabilities", VDict []);
             ("error", VStr "GPT Researcher not installed. Install with: pip install gpt-researcher") ])
       else None).

(** *** validate_research_setup *)

(** [bool(os.getenv(k))] *)
Definition truthy_env (v : option string) : bool :=
  match v with
  | Some s => negb (String.eqb s "")
  | None => false
  end.

(** The loop over [api_keys.items()], on the two entries of
    [validation_results] it updates. *)
Fixpoint check_api_keys (api_keys : list (string * option string))
    (api_keys_configured : dict) (setup_instructions : list value)
  : dict * list value :=
  match api_keys with
  | [] => (api_keys_configured, setup_instructions)
  | (key, v) :: rest =>
      check_api_keys rest
        (dict_set key (VBool (truthy_env v)) api_keys_configured)
        (if truthy_env v then setup_instructions
         else (setup_instructions ++
              [VStr ("Set " ++ key ++ " environment variable for full functionality")])%list)
  end.

(** The loop over [optional_deps.items()]. *)
Fixpoint check_optional_deps (deps : list (string * string))
    (required_dependencies : dict) : M dict :=
  match deps with
  | [] => Comp.ret required_dependencies
  | (dep, _) :: rest =>
      found <- Comp.try_except
                 (import_module ext dep ;;; Comp.ret true)
                 (fun e => if isinstance e ImportError
                           then Some (Comp.ret false) else None) ;;
      check_optional_deps rest (dict_set dep (VBool found) required_dependencies)
  end.

Definition validate_research_setup : M dict :=
  installed <- Comp.try_except
                 (import_module ext "gpt_researcher" ;;; Comp.ret true)
                 (fun e => if isinstance e ImportError
                           then Some (Comp.ret false) else None) ;;
  let setup_instructions0 :=
    if installed then []
    else [VStr "Install GPT Researcher: pip install gpt-researcher"] in
  openai <- os_getenv "OPENAI_API_KEY" ;;
  tavily <- os_getenv "TAVILY_API_KEY" ;;
  github <- os_getenv "GITHUB_TOKEN" ;;
  let api_keys :=
    [ ("OPENAI_API_KEY", openai);
      ("TAVILY_API_KEY", tavily);
      ("GITHUB_TOKEN", github) ] in
  let checked := check_api_keys api_keys [] setup_instructions0 in
  let optional_deps :=
    [ ("phue2", "For smart home integration");
      ("requests", "For HTTP requests");
      ("beautifulsoup4", "For web scraping") ] in
  required_dependencies <- check_optional_deps optional_deps [] ;;
  Comp.ret
    [ ("success", VBool true);
      ("validation_results",
         VDict
           [ ("gpt_researcher_installed", VBool installed);
             ("required_dependencies", VDict required_dependencies);
             ("api_keys_configured", VDict (fst checked));
             ("setup_instructions", VList (snd checked)) ]);
      ("error", VNone) ].

End Tools.

Arguments mk_world {LibState} _ _.
Arguments environ {LibState} _.
Arguments lib_state {LibState} _.
Arguments mk_external {LibState Researcher} _ _ _ _ _ _ _ _.
Arguments import_from {LibState Researcher} _ _ _ _.
Arguments import_module {LibState Researcher} _ _ _.
Arguments GPTResearcher {LibState Researcher} _ _ _ _ _ _.
Arguments researcher_setattr {LibState Researcher} _ _ _ _ _.
Arguments run_conduct_research {LibState Researcher} _ _ _.
Arguments run_conduct_deep_research {LibState Researcher} _ _ _.
Arguments run_write_report {LibState Researcher} _ _ _.
Arguments run_get_timestamp {LibState Researcher} _ _ _.
Arguments environ_assign {LibState} k v _.
Arguments os_getenv {LibState} k _.
Arguments conduct_research_try {LibState Researcher} ext _ _ _ _ _ _ _ _.
Arguments conduct_research_except {LibState} _ _.
Arguments conduct_research {LibState Researcher} ext _ _ _ _ _ _ _ _.
Arguments conduct_research_fn {LibState Researcher} ext _ _.
Arguments research_local_documents {LibState Researcher} ext _ _ _ _.
Arguments hybrid_research_with_mcp {LibState Researcher} ext _ _ _ _.
Arguments deep_research_try {LibState Researcher} ext _ _ _ _ _.
Arguments deep_research_except {LibState} _ _.
Arguments deep_research {LibState Researcher} ext _ _ _ _ _.
Arguments get_research_capabilities {LibState Researcher} ext _.
Arguments validate_research_setup {LibState Researcher} ext _.

(** ** Prompts *)

Definition nl : string := String (ascii_of_nat 10) EmptyString.
Definition dquote : string := String (ascii_of_nat 34) EmptyString.

(** The text of a triple-quoted literal, line by line. *)
Definition text (lines : list string) : string := String.concat nl lines.

Definition research_outline_prompt (topic : string) : string :=
  text
    [ "";
      "Create a comprehensive research outline for the topic: "
        ++ dquote ++ topic ++ dquote;
      "";
      "The outline should include:";
      "1. Main research question";
      "2. Key subtopics to explore";
      "3. Potential sources to investigate";
      "4. Expected findings areas";
      "5. Research methodology suggestions";
      "";
      "Focus on creating a structured approach that will lead to a thorough understanding of the topic.";
      "" ].

Definition research_analysis_prompt (query findings : string) : string :=
  text
    [ "";
      "Research Query: " ++ query;
      "";
      "Research Findings:";
      findings;
      "";
      "Please provide:";
      "1. Key insights and patterns";
      "2. Contradictions or conflicting information";
      "3. Gaps in the research";
      "4. Recommendations for further investigation";
      "5. Summary of the most important findings";
      "";
      "Focus on critical analysis and actionable insights.";
      "" ].

(** ** Schema Validator *)

(** Modelled from the spec: the declared type of a parameter.  The
    argument validation FastMCP derives from a tool's signature is not part
    of the server module; section 4.2 of the specification names primitive
    types, enumerations of literals and bounded numeric ranges.
    [TNullable] stands for the [Optional[...]] annotations of the tool
    signatures. *)
Inductive ftype : Type :=
| TString
| TNumber
| TBoolean
| TArray
| TObject
| TEnum (literals : list string)
| TRange (lo hi : Z)
| TNullable (t : ftype).

(** Modelled from the spec: one entry [(fieldName, type, required, default)]
    of a parameter schema (section 3); a bound on a number is part of its
    type ([TRange]). *)
Record field : Type := mk_field {
  fieldName : string;
  fieldType : ftype;
  required : bool;
  default : option value
}.

Definition schema : Type := list field.

(** Modelled from the spec: the violations the validator reports
    (section 4.2). *)
Inductive violation : Type :=
| MissingField (fieldName : string)
| TypeMismatch (fieldName expected actual : string)
| OutOfRange (fieldName : string) (bound actual : Z).

(** Modelled from the spec: the name under which a value's type is
    reported; section 8 reports the input [5] as a "number". *)
Definition wire_type (v : value) : string :=
  match v with
  | VNone => "null"
  | VBool _ => "boolean"
  | VInt _ => "number"
  | VStr _ => "string"
  | VList _ => "array"
  | VDict _ => "object"
  end.

Fixpoint expected_name (t : ftype) : string :=
  match t with
  | TString => "string"
  | TNumber => "number"
  | TBoolean => "boolean"
  | TArray => "array"
  | TObject => "object"
  | TEnum literals => String.concat "|" literals
  | TRange _ _ => "number"
  | TNullable t' => expected_name t'
  end.

(** Modelled from the spec: the type check of a field that is present
    (section 4.2); [None] when the value conforms. *)
Fixpoint check_type (name : string) (t : ftype) (v : value)
  : option violation :=
  match t, v with
  | TString, VStr _ => None
  | TNumber, VInt _ => None
  | TBoolean, VBool _ => None
  | TArray, VList _ => None
  | TObject, VDict _ => None
  | TEnum literals, VStr s =>
      if existsb (String.eqb s) literals then None
      else Some (TypeMismatch name (expected_name t) (wire_type v))
  | TRange lo hi, VInt z =>
      if (z <? lo)%Z then Some (OutOfRange name lo z)
      else if (hi <? z)%Z then Some (OutOfRange name hi z)
      else None
  | TNullable _, VNone => None
  | TNullable t', _ => check_type name t' v
  | _, _ => Some (TypeMismatch name (expected_name t) (wire_type v))
  end.

(** Modelled from the spec: one pass over the declared fields in schema
    order (section 4.2), giving the defaults to substitute and every
    violation found. *)
Fixpoint check_fields (s : schema) (input : dict) : dict * list violation :=
  match s with
  | [] => ([], [])
  | f :: s' =>
      let '(defaults, violations) := check_fields s' input in
      match dict_get (fieldName f) input, default f with
      | Some v, _ =>
          match check_type (fieldName f) (fieldType f) v with
          | Some bad => (defaults, bad :: violations)
          | None => (defaults, violations)
          end
      | None, Some dv => ((fieldName f, dv) :: defaults, violations)
      | None, None =>
          if required f then (defaults, MissingField (fieldName f) :: violations)
          else (defaults, violations)
      end
  end.

Inductive ValidationResult : Type :=
| Valid (input : dict)
| Invalid (violations : list violation).

(** Modelled from the spec: [validate(schema, input)] (section 4.2).
    Fields the schema does not declare are passed through. *)
Definition validate (s : schema) (input : dict) : ValidationResult :=
  match check_fields s input with
  | (defaults, []) => Valid (input ++ defaults)%list
  | (_, violations) => Invalid violations
  end.

(** The fields an input must carry: required, and with no default to fall
    back on. *)
Definition mandatory (s : schema) : list string :=
  map fieldName
    (filter (fun f => required f &&
                      match default f with None => true | Some _ => false end) s).

(** ** Capability Registry *)

(** The name or URI a descriptor is registered under. *)
Class Keyed (D : Type) : Type := key_of : D -> string.

Inductive RegistryError : Type :=
| DuplicateNameError (name : string)
| NotFoundError (name : string).

(** Modelled from the spec: [register(namespace, descriptor)] (section
    4.1); a namespace is the list of its descriptors in registration
    order. *)
Definition register {D} `{Keyed D} (d : D) (namespace : list D)
  : RegistryError + list D :=
  if existsb (fun d' => String.eqb (key_of d') (key_of d)) namespace
  then inl (DuplicateNameError (key_of d))
  else inr (namespace ++ [d])%list.

(** Modelled from the spec: [lookup(namespace, name)] (section 4.1). *)
Fixpoint lookup {D} `{Keyed D} (namespace : list D) (name : string)
  : RegistryError + D :=
  match namespace with
  | [] => inl (NotFoundError name)
  | d :: rest =>
      if String.eqb (key_of d) name then inr d else lookup rest name
  end.

(** Modelled from the spec: [listAll(namespace)] (section 4.1). *)
Definition listAll {D} (namespace : list D) : list D := namespace.

(** The startup phase: the registrations in program order, the first
    duplicate being fatal. *)
Fixpoint register_all {D} `{Keyed D} (ds : list D) (namespace : list D)
  : RegistryError + list D :=
  match ds with
  | [] => inr namespace
  | d :: ds' =>
      match register d namespace with
      | inl err => inl err
      | inr namespace' => register_all ds' namespace'
      end
  end.

(** ** Invocation Dispatcher *)

(** Modelled from the spec: the error taxonomy of section 7, without the
    startup-only [DuplicateNameError]. *)
Inductive ErrorDescriptor : Type :=
| NotFound (name : string)
| ValidationError (violations : list violation)
| HandlerError (message : string) (cause : option string)
| Timeout.

(** Modelled from the spec: the envelope of section 3. *)
Record InvocationResult : Type := mk_envelope {
  success : bool;
  payload : option value;
  error : option ErrorDescriptor
}.

Definition succeeded (v : value) : InvocationResult :=
  {| success := true; payload := Some v; error := None |}.

Definition failed (err : ErrorDescriptor) : InvocationResult :=
  {| success := false; payload := None; error := Some err |}.

(** Modelled from the spec: the machine cause tag of a handler error,
    "where available" (section 7). *)
Definition cause_of (e : exn) : option string :=
  match exn_cls e with
  | ImportError => Some "dependency not installed"
  | _ => None
  end.

Section Dispatcher.

Variable W : Type.

(** Modelled from the spec: [OperationDescriptor] (section 3). *)
Record OperationDescriptor : Type := mk_operation {
  name : string;
  parameterSchema : schema;
  handler : dict -> Comp.M W value
}.

(** Modelled from the spec: [PromptDescriptor] (section 3). *)
Record PromptDescriptor : Type := mk_prompt {
  prompt_name : string;
  prompt_parameterSchema : schema;
  renderer : dict -> Comp.M W value
}.

#[export] Instance OperationDescriptor_Keyed : Keyed OperationDescriptor := name.
#[export] Instance PromptDescriptor_Keyed : Keyed PromptDescriptor := prompt_name.

(** Modelled from the spec: [dispatch] for the operation namespace, steps
    1-4 of section 4.3. *)
Definition dispatch (operations : list OperationDescriptor)
    (n : string) (input : dict) : W -> InvocationResult * W :=
  fun w =>
    match lookup operations n with
    | inl _ => (failed (NotFound n), w)
    | inr d =>
        match validate (parameterSchema d) input with
        | Invalid violations => (failed (ValidationError violations), w)
        | Valid validated =>
            match handler d validated w with
            | (Ok v, w') => (succeeded v, w')
            | (Raise e, w') =>
                (failed (HandlerError (exn_str e) (cause_of e)), w')
            end
        end
    end.

(** Modelled from the spec: [ListOperations] (section 6), the names and
    schemas in the order of [listAll]. *)
Definition ListOperations (operations : list OperationDescriptor)
  : list (string * schema) :=
  map (fun d => (name d, parameterSchema d)) (listAll operations).

(** Modelled from the spec: [CallOperation] (section 6). *)
Definition CallOperation := dispatch.

End Dispatcher.

Arguments mk_operation {W} _ _ _.
Arguments name {W} _.
Arguments parameterSchema {W} _.
Arguments handler {W} _.
Arguments mk_prompt {W} _ _ _.
Arguments prompt_name {W} _.
Arguments prompt_parameterSchema {W} _.
Arguments renderer {W} _.
Arguments dispatch {W} _ _ _ _.
Arguments ListOperations {W} _.
Arguments CallOperation {W} _ _ _ _.

(** A spy around a handler: it counts its invocations in the world and
    otherwise behaves as the handler it wraps. *)
Definition spy {W} (h : dict -> Comp.M W value) : dict -> Comp.M (nat * W) value :=
  fun input cw =>
    let '(r, w') := h input (snd cw) in (r, (S (fst cw), w')).

Definition spy_on {W} (d : OperationDescriptor W) : OperationDescriptor (nat * W) :=
  {| name := name d;
     parameterSchema := parameterSchema d;
     handler := spy (handler d) |}.

(** ** The server *)

Section Server.

Variable LibState : Type.
Variable Researcher : Type.
Variable ext : external LibState Researcher.

Abbreviation W := (world LibState).

(** Modelled from the spec: a handler is invoked with the validated input
    (section 4.3).  These bind the fields of that mapping to the
    parameters of the Python function; FastMCP does the binding. *)
Definition bad_argument {A} (k : string) : Comp.M W A :=
  Comp.raise (mk_exn Exception ("invalid argument: " ++ k)).

Definition arg_str (input : dict) (k : string) : Comp.M W string :=
  match dict_get k input with
  | Some (VStr s) => Comp.ret s
  | _ => bad_argument k
  end.

Definition arg_int (input : dict) (k : string) : Comp.M W Z :=
  match dict_get k input with
  | Some (VInt z) => Comp.ret z
  | _ => bad_argument k
  end.

Definition arg_list (input : dict) (k : string) : Comp.M W (list value) :=
  match dict_get k input with
  | Some (VList l) => Comp.ret l
  | _ => bad_argument k
  end.

Definition arg_opt_str (input : dict) (k : string) : Comp.M W (option string) :=
  match dict_get k input with
  | Some (VStr s) => Comp.ret (Some s)
  | Some VNone => Comp.ret None
  | _ => bad_argument k
  end.

Definition arg_opt_list (input : dict) (k : string)
  : Comp.M W (option (list value)) :=
  match dict_get k input with
  | Some (VList l) => Comp.ret (Some l)
  | Some VNone => Comp.ret None
  | _ => bad_argument k
  end.

(** The parameter schemas, read off the signatures of the decorated
    functions. *)
Definition report_type_t : ftype :=
  TEnum ["research_report"; "resource_report"; "outline_report"].

Definition report_source_t : ftype := TEnum ["web"; "local"; "hybrid"].

Definition conduct_research_schema : schema :=
  [ mk_field "query" TString true None;
    mk_field "report_type" report_type_t false (Some (VStr "research_report"));
    mk_field "report_source" report_source_t false (Some (VStr "web"));
    mk_field "max_iterations" TNumber false (Some (VInt 3));
    mk_field "doc_path" (TNullable TString) false (Some VNone);
    mk_field "retriever" TString false (Some (VStr "tavily"));
    mk_field "mcp_configs" (TNullable TArray) false (Some VNone) ].

Definition research_local_documents_schema : schema :=
  [ mk_field "query" TString true None;
    mk_field "doc_path" TString true None;
    mk_field "report_type" report_type_t false (Some (VStr "research_report")) ].

Definition deep_research_schema : schema :=
  [ mk_field "query" TString true None;
    mk_field "depth" TNumber false (Some (VInt 3));
    mk_field "breadth" TNumber false (Some (VInt 5));
    mk_field "max_iterations" TNumber false (Some (VInt 5)) ].

Definition hybrid_research_with_mcp_schema : schema :=
  [ mk_field "query" TString true None;
    mk_field "mcp_configs" TArray true None;
    mk_field "report_type" report_type_t false (Some (VStr "research_report")) ].

(** The [@mcp.tool] registrations. *)
Definition conduct_research_tool : OperationDescriptor W :=
  {| name := "conduct_research";
     parameterSchema := conduct_research_schema;
     handler := fun input =>
       query <- arg_str input "query" ;;
       report_type <- arg_str input "report_type" ;;
       report_source <- arg_str input "report_source" ;;
       max_iterations <- arg_int input "max_iterations" ;;
       doc_path <- arg_opt_str input "doc_path" ;;
       retriever <- arg_str input "retriever" ;;
       mcp_configs <- arg_opt_list input "mcp_configs" ;;
       d <- conduct_research ext query report_type report_source
              max_iterations doc_path retriever mcp_configs ;;
       Comp.ret (VDict d) |}.

Definition research_local_documents_tool : OperationDescriptor W :=
  {| name := "research_local_documents";
     parameterSchema := research_local_documents_schema;
     handler := fun input =>
       query <- arg_str input "query" ;;
       doc_path <- arg_str input "doc_path" ;;
       report_type <- arg_str input "report_type" ;;
       d <- research_local_documents ext query doc_path report_type ;;
       Comp.ret (VDict d) |}.

Definition deep_research_tool : OperationDescriptor W :=
  {| name := "deep_research";
     parameterSchema := deep_research_schema;
     handler := fun input =>
       query <- arg_str input "query" ;;
       depth <- arg_int input "depth" ;;
       breadth <- arg_int input "breadth" ;;
       max_iterations <- arg_int input "max_iterations" ;;
       d <- deep_research ext query depth breadth max_iterations ;;
       Comp.ret (VDict d) |}.

Definition hybrid_research_with_mcp_tool : OperationDescriptor W :=
  {| name := "hybrid_research_with_mcp";
     parameterSchema := hybrid_research_with_mcp_schema;
     handler := fun input =>
       query <- arg_str input "query" ;;
       mcp_configs <- arg_list input "mcp_configs" ;;
       report_type <- arg_str input "report_type" ;;
       d <- hybrid_research_with_mcp ext query mcp_configs report_type ;;
       Comp.ret (VDict d) |}.

Definition get_research_capabilities_tool : OperationDescriptor W :=
  {| name := "get_research_capabilities";
     parameterSchema := [];
     handler := fun _ =>
       d <- get_research_capabilities ext ;; Comp.ret (VDict d) |}.

Definition validate_research_setup_tool : OperationDescriptor W :=
  {| name := "validate_research_setup";
     parameterSchema := [];
     handler := fun _ =>
       d <- validate_research_setup ext ;; Comp.ret (VDict d) |}.

(** The tools in the order their decorators run when the module loads. *)
Definition tools : list (OperationDescriptor W) :=
  [ conduct_research_tool;
    research_local_documents_tool;
    deep_research_tool;
    hybrid_research_with_mcp_tool;
    get_research_capabilities_tool;
    validate_research_setup_tool ].

Definition server_operations : RegistryError + list (OperationDescriptor W) :=
  register_all tools [].

(** The [@mcp.prompt] registrations. *)
Definition research_outline_descriptor : PromptDescriptor W :=
  {| prompt_name := "research-outline";
     prompt_parameterSchema := [ mk_field "topic" TString true None ];
     renderer := fun input =>
       topic <- arg_str input "topic" ;;
       Comp.ret (VStr (research_outline_prompt topic)) |}.

Definition research_analysis_descriptor : PromptDescriptor W :=
  {| prompt_name := "research-analysis";
     prompt_parameterSchema :=
       [ mk_field "query" TString true None;
         mk_field "findings" TString true None ];
     renderer := fun input =>
       query <- arg_str input "query" ;;
       findings <- arg_str input "findings" ;;
       Comp.ret (VStr (research_analysis_prompt query findings)) |}.

Definition prompts : list (PromptDescriptor W) :=
  [ research_outline_descriptor; research_analysis_descriptor ].

Definition server_prompts : RegistryError + list (PromptDescriptor W) :=
  register_all prompts [].

End Server.

Arguments arg_str {LibState} input k _.
Arguments arg_int {LibState} input k _.
Arguments arg_list {LibState} input k _.
Arguments arg_opt_str {LibState} input k _.
Arguments arg_opt_list {LibState} input k _.
Arguments conduct_research_tool {LibState Researcher} ext.
Arguments research_local_documents_tool {LibState Researcher} ext.
Arguments deep_research_tool {LibState Researcher} ext.
Arguments hybrid_research_with_mcp_tool {LibState Researcher} ext.
Arguments get_research_capabilities_tool {LibState Researcher} ext.
Arguments validate_research_setup_tool {LibState Researcher} ext.
Arguments tools {LibState Researcher} ext.
Arguments server_operations {LibState Researcher} ext.
Arguments research_outline_descriptor {LibState}.
Arguments research_analysis_descriptor {LibState}.
Arguments prompts {LibState}.
Arguments server_prompts {LibState}.

(** ** Calls of the tool functions *)

(** One call of a tool function with its arguments, to state a property
    of several tools at once. *)
Inductive tool_call : Type :=
| call_conduct_research
    (query report_type report_source : string) (max_iterations : Z)
    (doc_path : option string) (retriever : string)
    (mcp_configs : option (list value))
| call_research_local_documents (query doc_path report_type : string)
| call_deep_research (query : string) (depth breadth max_iterations : Z)
| call_hybrid_research_with_mcp
    (query : string) (mcp_configs : list value) (report_type : string)
| call_get_research_capabilities
| call_validate_research_setup.

Section Calls.

Variable LibState : Type.
Variable Researcher : Type.
Variable ext : external LibState Researcher.

Definition run_tool (c : tool_call) : Comp.M (world LibState) dict :=
  match c with
  | call_conduct_research q rt rs mi dp r mc =>
      conduct_research ext q rt rs mi dp r mc
  | call_research_local_documents q dp rt =>
      research_local_documents ext q dp rt
  | call_deep_research q d b mi => deep_research ext q d b mi
  | call_hybrid_research_with_mcp q mc rt =>
      hybrid_research_with_mcp ext q mc rt
  | call_get_research_capabilities => get_research_capabilities ext
  | call_validate_research_setup => validate_research_setup ext
  end.

(** The [try:] block of the two tools that guard their whole body with
    [except ImportError] and [except Exception]. *)
Definition try_block (c : tool_call)
  : option (Comp.M (world LibState) dict) :=
  match c with
  | call_conduct_research q rt rs mi dp r mc =>
      Some (conduct_research_try ext q rt rs mi dp r mc)
  | call_deep_research q d b mi => Some (deep_research_try ext q d b mi)
  | _ => None
  end.

End Calls.

Arguments run_tool {LibState Researcher} ext c _.
Arguments try_block {LibState Researcher} ext c.

(** The [query] argument of a call, for the tools that take one. *)
Definition query_of (c : tool_call) : option string :=
  match c with
  | call_conduct_research q _ _ _ _ _ _ => Some q
  | call_research_local_documents q _ _ => Some q
  | call_deep_research q _ _ _ => Some q
  | call_hybrid_research_with_mcp q _ _ => Some q
  | _ => None
  end.

(** ** Reading a result dictionary *)

(** The entries that carry what a tool produced. *)
Definition payload_keys : list string :=
  ["report"; "citations"; "metadata"; "capabilities"; "validation_results"].

Definition populated (d : dict) (k : string) : bool :=
  match dict_get k d with
  | Some v => truthy v
  | None => false
  end.

Definition payload_populated (d : dict) : bool :=
  existsb (populated d) payload_keys.

Definition error_populated (d : dict) : bool := populated d "error".

(** ** Sample collaborators *)

(** Three behaviours of the external package over a world with no library
    state, used to run the tools on concrete inputs: the package is
    missing, it works, and it fails while researching. *)
Definition no_module {A} : Comp.M (world unit) A :=
  Comp.raise (mk_exn ImportError "No module named 'gpt_researcher'").

Definition ext_missing : external unit unit :=
  {| import_from := fun _ _ => no_module;
     import_module := fun _ => no_module;
     GPTResearcher := fun _ _ _ _ => no_module;
     researcher_setattr := fun _ _ _ => no_module;
     run_conduct_research := fun _ => no_module;
     run_conduct_deep_research := fun _ => no_module;
     run_write_report := fun _ => no_module;
     run_get_timestamp := fun _ => no_module |}.

Definition sample_findings : dict :=
  [ ("citations", VList [VStr "https://example.org/a"; VStr "https://example.org/b"]);
    ("research_steps", VList [VStr "search"; VStr "summarise"]) ].

Definition ext_working : external unit unit :=
  {| import_from := fun _ _ => Comp.ret tt;
     import_module := fun _ => Comp.ret tt;
     GPTResearcher := fun _ _ _ _ => Comp.ret tt;
     researcher_setattr := fun _ _ _ => Comp.ret tt;
     run_conduct_research := fun _ => Comp.ret sample_findings;
     run_conduct_deep_research := fun _ => Comp.ret sample_findings;
     run_write_report := fun _ => Comp.ret (VStr "A report.");
     run_get_timestamp := fun _ => Comp.ret (VStr "2024-01-01 00:00:00") |}.

Definition ext_failing : external unit unit :=
  {| import_from := fun _ _ => Comp.ret tt;
     import_module := fun _ => Comp.ret tt;
     GPTResearcher := fun _ _ _ _ => Comp.ret tt;
     researcher_setattr := fun _ _ _ => Comp.ret tt;
     run_conduct_research := fun _ =>
       Comp.raise (mk_exn Exception "OPENAI_API_KEY is not set");
     run_conduct_deep_research := fun _ =>
       Comp.raise (mk_exn Exception "OPENAI_API_KEY is not set");
     run_write_report := fun _ => Comp.ret (VStr "A report.");
     run_get_timestamp := fun _ => Comp.ret (VStr "2024-01-01 00:00:00") |}.

Definition sample_world : world unit := mk_world [] tt.

Definition sample_call : tool_call :=
  call_conduct_research "What is artificial intelligence?"
    "research_report" "web" 1 None "tavily" None.

(** ** Collaborators that leave os.environ alone *)

(** A computation that hands [os.environ] back as it found it, whether it
    returns or raises. *)
Definition keeps_environ {LibState A} (c : Comp.M (world LibState) A) : Prop :=
  forall w, environ (snd (c w)) = environ w.

(** The external calls do not write to [os.environ]. *)
Record quiet {LibState Researcher} (ext : external LibState Researcher)
  : Prop := mk_quiet {
  quiet_import_from : forall m n, keeps_environ (import_from ext m n);
  quiet_import_module : forall m, keeps_environ (import_module ext m);
  quiet_GPTResearcher :
    forall q rt rs mc, keeps_environ (GPTResearcher ext q rt rs mc);
  quiet_researcher_setattr :
    forall r k v, keeps_environ (researcher_setattr ext r k v);
  quiet_run_conduct_research :
    forall r, keeps_environ (run_conduct_research ext r);
  quiet_run_conduct_deep_research :
    forall r, keeps_environ (run_conduct_deep_research ext r);
  quiet_run_write_report : forall r, keeps_environ (run_write_report ext r);
  quiet_run_get_timestamp : forall r, keeps_environ (run_get_timestamp ext r)
}.

(** A string [os.environ] refuses: one with a NUL character in it. *)
Definition has_nul (s : string) : bool :=
  existsb (Ascii.eqb zero) (list_ascii_of_string s).

(** What the two assignments at the head of [conduct_research] leave in
    [os.environ] when neither value is refused. *)
Definition exported (doc_path : option string) (retriever : string)
    (env : environ_t) : environ_t :=
  let env1 :=
    match doc_path with
    | Some p => if String.eqb p "" then env else environ_set "DOC_PATH" p env
    | None => env
    end in
  if String.eqb retriever "" then env1
  else environ_set "RETRIEVER" retriever env1.

(** A result with the [max_iterations] entry of its metadata replaced,
    where it has one. *)
Definition with_max_iterations (max_iterations : Z) (d : dict) : dict :=
  match dict_get "metadata" d with
  | Some (VDict metadata) =>
      if dict_mem "max_iterations" metadata
      then dict_set "metadata"
             (VDict (dict_set "max_iterations" (VInt max_iterations) metadata)) d
      else d
  | _ => d
  end.

(** The package imports, but the research itself trips over a module that
    is not there. *)
Definition ext_lazy_import : external unit unit :=
  {| import_from := fun _ _ => Comp.ret tt;
     import_module := fun _ => Comp.ret tt;
     GPTResearcher := fun _ _ _ _ => Comp.ret tt;
     researcher_setattr := fun _ _ _ => Comp.ret tt;
     run_conduct_research := fun _ =>
       Comp.raise (mk_exn ImportError "No module named 'langchain'");
     run_conduct_deep_research := fun _ =>
       Comp.raise (mk_exn ImportError "No module named 'langchain'");
     run_write_report := fun _ => Comp.ret (VStr "A report.");
     run_get_timestamp := fun _ => Comp.ret (VStr "2024-01-01 00:00:00") |}.

(** The instruction [validate_research_setup] gives for a missing key. *)
Definition set_key_instruction (key : string) : value :=
  VStr ("Set " ++ key ++ " environment variable for full functionality").

(** [bool(value)] over the items of [api_keys]. *)
Definition key_is_set (item : string * option string) : bool :=
  truthy_env (snd item).

(** The import system answers a module it cannot load with an
    [ImportError] and nothing else. *)
Definition imports_fail_softly {LibState Researcher}
    (ext : external LibState Researcher) : Prop :=
  forall m w e w',
    import_module ext m w = (Raise e, w') -> isinstance e ImportError = true.

(** Whether a computation returned. *)
Definition returned {A} (r : result A) : bool :=
  match r with
  | Ok _ => true
  | Raise _ => false
  end.

(** The line that separates the query from the findings in the analysis
    prompt, with the blank line before it. *)
Definition findings_header : string :=
  nl ++ nl ++ "Research Findings:" ++ nl.

(** ** The test suite *)

(** [needle in haystack] for two strings. *)
Fixpoint is_substring (needle haystack : string) : bool :=
  String.prefix needle haystack ||
  match haystack with
  | EmptyString => false
  | String _ rest => is_substring needle rest
  end.

(** [key in v] for a string [key]: a key of a dictionary, an element of a
    list, a substring of a string; a [TypeError] for anything else. *)
Definition py_in (key : string) (v : value) : result bool :=
  match v with
  | VDict d => Ok (dict_mem key d)
  | VList l =>
      Ok (existsb (fun x => match x with
                            | VStr s => String.eqb s key
                            | _ => false
                            end) l)
  | VStr s => Ok (is_substring key s)
  | _ => Raise (mk_exn Exception
                  ("argument of type '" ++ type_name v ++ "' is not iterable"))
  end.

(** [v == s] for a string literal [s]. *)
Definition py_eq_str (v : value) (s : string) : bool :=
  match v with
  | VStr s' => String.eqb s' s
  | _ => false
  end.

Section Tests.

Variable LibState : Type.
Variable Researcher : Type.
Variable ext : external LibState Researcher.

Abbreviation T := (Comp.M (world LibState)).

(** [assert b] *)
Definition py_assert (b : bool) : T unit :=
  if b then Comp.ret tt else Comp.raise (mk_exn Exception "AssertionError").

(** [d[k]] where a missing key is a [KeyError]. *)
Definition subscript (d : dict) (k : string) : T value :=
  match dict_get k d with
  | Some v => Comp.ret v
  | None => Comp.raise (mk_exn Exception ("'" ++ k ++ "'"))
  end.

Definition test_get_research_capabilities : T unit :=
  result <- get_research_capabilities ext ;;
  py_assert true ;;;                       (* isinstance(result, dict) *)
  py_assert (dict_mem "success" result) ;;;
  py_assert (dict_mem "capabilities" result) ;;;
  success <- subscript result "success" ;;
  if truthy success then
    capabilities <- subscript result "capabilities" ;;
    has_types <- Comp.lift (py_in "supported_report_types" capabilities) ;;
    py_assert has_types ;;;
    has_sources <- Comp.lift (py_in "supported_sources" capabilities) ;;
    py_assert has_sources ;;;
    has_formats <- Comp.lift (py_in "supported_document_formats" capabilities) ;;
    py_assert has_formats
  else Comp.ret tt.

Definition test_validate_research_setup : T unit :=
  result <- validate_research_setup ext ;;
  py_assert true ;;;
  py_assert (dict_mem "success" result) ;;;
  py_assert (dict_mem "validation_results" result) ;;;
  validation <- subscript result "validation_results" ;;
  has_installed <- Comp.lift (py_in "gpt_researcher_installed" validation) ;;
  py_assert has_installed ;;;
  has_keys <- Comp.lift (py_in "api_keys_configured" validation) ;;
  py_assert has_keys ;;;
  has_instructions <- Comp.lift (py_in "setup_instructions" validation) ;;
  py_assert has_instructions.

Definition test_conduct_research_basic : T unit :=
  result <- conduct_research_fn ext
              {| kw_query := "What is artificial intelligence?";
                 kw_report_type := Some "research_report";
                 kw_report_source := Some "web";
                 kw_max_iterations := Some 1%Z;
                 kw_doc_path := None;
                 kw_retriever := None;
                 kw_mcp_configs := None |} ;;
  py_assert true ;;;
  py_assert (dict_mem "success" result) ;;;
  py_assert (dict_mem "query" result) ;;;
  py_assert (dict_mem "report" result) ;;;
  py_assert (dict_mem "citations" result) ;;;
  py_assert (dict_mem "metadata" result) ;;;
  py_assert (dict_mem "error" result) ;;;
  query <- subscript result "query" ;;
  py_assert (py_eq_str query "What is artificial intelligence?").

Definition test_research_local_documents : T unit :=
  result <- research_local_documents ext "Test query" "/nonexistent/path"
              "research_report" ;;
  py_assert true ;;;
  py_assert (dict_mem "success" result) ;;;
  py_assert (dict_mem "query" result) ;;;
  query <- subscript result "query" ;;
  py_assert (py_eq_str query "Test query").

Definition test_deep_research : T unit :=
  result <- deep_research ext "Test deep research query" 2 3 2 ;;
  py_assert true ;;;
  py_assert (dict_mem "success" result) ;;;
  py_assert (dict_mem "query" result) ;;;
  py_assert (dict_mem "metadata" result) ;;;
  query <- subscript result "query" ;;
  py_assert (py_eq_str query "Test deep research query").

Definition test_mcp_configs : list value :=
  [ VDict [ ("name", VStr "test");
            ("command", VStr "echo");
            ("args", VList [VStr "test"]);
            ("env", VDict []) ] ].

Definition test_hybrid_research_with_mcp : T unit :=
  result <- hybrid_research_with_mcp ext "Test hybrid research"
              test_mcp_configs "research_report" ;;
  py_assert true ;;;
  py_assert (dict_mem "success" result) ;;;
  py_assert (dict_mem "query" result) ;;;
  query <- subscript result "query" ;;
  py_assert (py_eq_str query "Test hybrid research").

Definition test_research_config_validation : T unit :=
  result <- conduct_research_fn ext
              {| kw_query := "Test query";
                 kw_report_type := None;
                 kw_report_source := None;
                 kw_max_iterations := Some 15%Z;
                 kw_doc_path := None;
                 kw_retriever := None;
                 kw_mcp_configs := None |} ;;
  py_assert true ;;;
  py_assert (dict_mem "success" result).

(** A test with the tool call it makes. *)
Definition test_suite : list (T unit * tool_call) :=
  [ (test_get_research_capabilities, call_get_research_capabilities);
    (test_validate_research_setup, call_validate_research_setup);
    (test_conduct_research_basic,
       call_conduct_research "What is artificial intelligence?"
         "research_report" "web" 1 None "tavily" None);
    (test_research_local_documents,
       call_research_local_documents "Test query" "/nonexistent/path"
         "research_report");
    (test_deep_research, call_deep_research "Test deep research query" 2 3 2);
    (test_hybrid_research_with_mcp,
       call_hybrid_research_with_mcp "Test hybrid research" test_mcp_configs
         "research_report");
    (test_research_config_validation,
       call_conduct_research "Test query" "research_report" "web" 15 None
         "tavily" None) ].

End Tests.

Arguments test_suite {LibState Researcher} ext.

(** What is left of a tool's outcome when its result is checked and
    dropped. *)
Definition passes_if_returned {W} (outcome : result dict * W) : result unit * W :=
  (match fst outcome with
   | Ok _ => Ok tt
   | Raise e => Raise e
   end, snd outcome).

(** * The personal assistant server ([practical_example.py]) *)

Module Assistant.

(** What [json.load] makes of [todos.json]: the document it holds, or
    nothing when the text is not JSON.  A document written by [json.dump]
    is read back as the value that was written. *)
Inductive file_content : Type :=
| Unreadable
| Json (v : value).

Section Todos.

(** The state behind [datetime.now()]. *)
Variable Clock : Type.

(** [datetime.now().isoformat()] *)
Variable now_isoformat : Clock -> string * Clock.

(** How an f-string prints a value read from the file. *)
Variable fmt : value -> string.

Record store : Type := mk_store {
  todos_json : option file_content;    (* todos.json, if it exists *)
  clock : Clock
}.

Abbreviation M := (Comp.M store).

Definition now : M string :=
  fun s =>
    let '(t, c) := now_isoformat (clock s) in
    (Ok t, mk_store (todos_json s) c).

(** [os.path.exists(todos_file)] *)
Definition path_exists : M bool :=
  fun s => (Ok (match todos_json s with Some _ => true | None => false end), s).

(** [with open(todos_file, 'r') as f: json.load(f)] *)
Definition json_load : M value :=
  fun s =>
    match todos_json s with
    | Some (Json v) => (Ok v, s)
    | Some Unreadable =>
        (Raise (mk_exn Exception "Expecting value: line 1 column 1 (char 0)"), s)
    | None =>
        (Raise (mk_exn Exception "[Errno 2] No such file or directory: 'todos.json'"), s)
    end.

(** [with open(todos_file, 'w') as f: json.dump(v, f, indent=2)] *)
Definition json_dump (v : value) : M unit :=
  fun s => (Ok tt, mk_store (Some (Json v)) (clock s)).

(** [todos.append(todo)]: only a list has [append]. *)
Definition list_append (todos todo : value) : result value :=
  match todos with
  | VList l => Ok (VList (l ++ [todo])%list)
  | _ => Raise (mk_exn Exception
                  ("'" ++ type_name todos ++ "' object has no attribute 'append'"))
  end.

(** [todo[key]] for a string key. *)
Definition item_get (todo : value) (key : string) : result value :=
  match todo with
  | VDict d =>
      match dict_get key d with
      | Some v => Ok v
      | None => Raise (mk_exn Exception ("'" ++ key ++ "'"))
      end
  | VStr _ => Raise (mk_exn Exception "string indices must be integers, not 'str'")
  | VList _ =>
      Raise (mk_exn Exception "list indices must be integers or slices, not str")
  | _ => Raise (mk_exn Exception
                  ("'" ++ type_name todo ++ "' object is not subscriptable"))
  end.

(** [todo[key] = v] for a string key. *)
Definition item_set (todo : value) (key : string) (v : value) : result value :=
  match todo with
  | VDict d => Ok (VDict (dict_set key v d))
  | VList _ =>
      Raise (mk_exn Exception "list indices must be integers or slices, not str")
  | _ => Raise (mk_exn Exception
                  ("'" ++ type_name todo ++ "' object does not support item assignment"))
  end.

(** What a [for] loop over a value visits: the elements of a list, the
    keys of a dictionary, the characters of a string. *)
Definition iterate (v : value) : result (list value) :=
  match v with
  | VList l => Ok l
  | VDict d => Ok (map (fun kv => VStr (fst kv)) d)
  | VStr s =>
      Ok (map (fun c => VStr (String c EmptyString)) (list_ascii_of_string s))
  | _ => Raise (mk_exn Exception
                  ("'" ++ type_name v ++ "' object is not iterable"))
  end.

(** [todos[i]] for an index [0 <= i < len(todos)]. *)
Definition index (todos : value) (i : Z) : result value :=
  match todos with
  | VList l =>
      match nth_error l (Z.to_nat i) with
      | Some v => Ok v
      | None => Raise (mk_exn Exception "list index out of range")
      end
  | VStr s =>
      match String.get (Z.to_nat i) s with
      | Some c => Ok (VStr (String c EmptyString))
      | None => Raise (mk_exn Exception "string index out of range")
      end
  | VDict _ => Raise (mk_exn Exception (fmt (VInt i)))
  | _ => Raise (mk_exn Exception
                  ("'" ++ type_name todos ++ "' object is not subscriptable"))
  end.

(** The list with its [i]-th element replaced. *)
Fixpoint replace_nth (l : list value) (i : nat) (v : value) : list value :=
  match l, i with
  | [], _ => []
  | _ :: rest, O => v :: rest
  | x :: rest, S i' => x :: replace_nth rest i' v
  end.

(** The value [todos] after [todos[i] = v] took effect on one of its
    elements. *)
Definition with_item (todos : value) (i : Z) (v : value) : value :=
  match todos with
  | VList l => VList (replace_nth l (Z.to_nat i) v)
  | _ => todos
  end.

Definition create_todo (task priority : string) : M string :=
  created <- now ;;
  let todo :=
    VDict [ ("task", VStr task);
            ("priority", VStr priority);
            ("created", VStr created);
            ("completed", VBool false) ] in
  found <- path_exists ;;
  todos <- (if found then json_load else Comp.ret (VList [])) ;;
  todos' <- Comp.lift (list_append todos todo) ;;
  json_dump todos' ;;;
  Comp.ret ("Created todo: '" ++ task ++ "' with priority '" ++ priority ++ "'").

Definition check_mark : string := "✅".
Definition hourglass : string := "⏳".

(** The body of the loop of [list_todos], from the [i]-th todo on. *)
Fixpoint list_lines (todos : list value) (i : Z) (acc : string)
  : result string :=
  match todos with
  | [] => Ok acc
  | todo :: rest =>
      match item_get todo "completed" with
      | Raise e => Raise e
      | Ok completed =>
          let status := if truthy completed then check_mark else hourglass in
          match item_get todo "task" with
          | Raise e => Raise e
          | Ok task =>
              match item_get todo "priority" with
              | Raise e => Raise e
              | Ok priority =>
                  list_lines rest (i + 1)
                    (acc ++ fmt (VInt i) ++ ". " ++ status ++ " " ++ fmt task
                         ++ " (Priority: " ++ fmt priority ++ ")" ++ nl)
              end
          end
      end
  end.

Definition list_todos : M string :=
  found <- path_exists ;;
  if negb found then Comp.ret "No todos found. Create one with create_todo!"
  else
    todos <- json_load ;;
    if negb (truthy todos)
    then Comp.ret "No todos found. Create one with create_todo!"
    else
      items <- Comp.lift (iterate todos) ;;
      Comp.lift (list_lines items 1 ("Current todos:" ++ nl)).

Definition complete_todo (todo_number : Z) : M string :=
  found <- path_exists ;;
  if negb found then Comp.ret "No todos found."
  else
    todos <- json_load ;;
    (* todo_number < 1 or todo_number > len(todos) *)
    invalid <- (if (todo_number <? 1)%Z then Comp.ret true
                else n <- Comp.lift (py_len todos) ;;
                     Comp.ret (todo_number >? n)%Z) ;;
    if invalid then
      n <- Comp.lift (py_len todos) ;;
      Comp.ret ("Invalid todo number. Please choose 1-" ++ fmt (VInt n))
    else
      todo <- Comp.lift (index todos (todo_number - 1)) ;;
      todo' <- Comp.lift (item_set todo "completed" (VBool true)) ;;
      let todos' := with_item todos (todo_number - 1) todo' in
      json_dump todos' ;;;
      todo'' <- Comp.lift (index todos' (todo_number - 1)) ;;
      task <- Comp.lift (item_get todo'' "task") ;;
      Comp.ret ("Completed todo: '" ++ fmt task ++ "'").

(** A request to one of the three todo tools. *)
Inductive request : Type :=
| Create (task priority : string)
| Complete (todo_number : Z)
| List.

Definition serve (r : request) : M string :=
  match r with
  | Create task priority => create_todo task priority
  | Complete todo_number => complete_todo todo_number
  | List => list_todos
  end.

(** A todo as [create_todo] writes it: a dictionary with a string task, a
    string priority and a boolean completion flag. *)
Definition is_todo (v : value) : bool :=
  match v with
  | VDict d =>
      match dict_get "task" d, dict_get "priority" d, dict_get "completed" d with
      | Some (VStr _), Some (VStr _), Some (VBool _) => true
      | _, _, _ => false
      end
  | _ => false
  end.

(** The file is absent or holds a list of todos. *)
Definition todos_file_ok (s : store) : bool :=
  match todos_json s with
  | None => true
  | Some (Json (VList l)) => forallb is_todo l
  | Some _ => false
  end.

(** The todos on file: none when the file is absent, and no answer when
    the file holds anything but a list. *)
Definition current_todos (s : store) : option (list value) :=
  match todos_json s with
  | None => Some []
  | Some (Json (VList l)) => Some l
  | Some _ => None
  end.

End Todos.

Arguments mk_store {Clock} _ _.
Arguments todos_json {Clock} _.
Arguments clock {Clock} _.
Arguments todos_file_ok {Clock} _.
Arguments current_todos {Clock} _.

End Assistant.

(** A clock for running the todo tools on concrete inputs, and a printer
    that shows strings as they are. *)
Definition sample_clock (n : nat) : string * nat :=
  ("2024-01-01T00:00:00", S n).

Definition sample_fmt (v : value) : string :=
  match v with
  | VStr s => s
  | VInt z => NilZero.string_of_int (Z.to_int z)
  | _ => "?"
  end.

(** Two todos on file, the second without a task, for running the todo
    tools on concrete inputs. *)
Definition sample_todos : list value :=
  [ VDict [ ("task", VStr "write report"); ("priority", VStr "high");
            ("created", VStr "2024-01-01T00:00:00");
            ("completed", VBool false) ];
    VDict [ ("priority", VStr "low"); ("completed", VBool false) ] ].

Definition sample_store : Assistant.store nat :=
  Assistant.mk_store (Some (Assistant.Json (VList sample_todos))) 0.

(** * The Supabase integration server ([supabase_integration.py]) *)

Module Supabase.

(** [c.upper()] for one character: the letters [a]-[z] move to [A]-[Z],
    every other byte stays.  No character outside ASCII has an upper case
    that spells part of the two phrases searched for below. *)
Definition upper_char (c : ascii) : ascii :=
  let n := nat_of_ascii c in
  if (97 <=? n)%nat && (n <=? 122)%nat then ascii_of_nat (n - 32) else c.

(** [s.upper()] *)
Fixpoint upper (s : string) : string :=
  match s with
  | EmptyString => EmptyString
  | String c rest => String (upper_char c) (upper rest)
  end.

(** [d[key].append(x)] *)
Definition append_to (key : string) (x : value) (d : dict) : dict :=
  match dict_get key d with
  | Some (VList l) => dict_set key (VList (l ++ [x])%list) d
  | _ => d
  end.

(** Whether a string has a blank in it. *)
Fixpoint has_space (s : string) : bool :=
  match s with
  | EmptyString => false
  | String c rest => Ascii.eqb c " " || has_space rest
  end.

Section Migration.

Variable Clock : Type.

(** [datetime.now().isoformat()] *)
Variable now_isoformat : Clock -> string * Clock.

Definition now : Comp.M Clock string :=
  fun c => let '(t, c') := now_isoformat c in (Ok t, c').

(** The block under [try:]. *)
Definition validate_migration_safety_try (migration_file project_id : string)
  : Comp.M Clock dict :=
  validated_at <- now ;;
  let validation_results :=
    [ ("migration_file", VStr migration_file);
      ("project_id", VStr project_id);
      ("validated_at", VStr validated_at);
      ("status", VStr "SAFE");
      ("warnings", VList []);
      ("recommendations", VList []) ] in
  let validation_results :=
    if is_substring "DROP TABLE" (upper migration_file)
    then dict_set "status" (VStr "WARNING")
           (append_to "warnings"
              (VStr "Migration contains DROP TABLE - ensure this is intentional")
              validation_results)
    else validation_results in
  let validation_results :=
    if is_substring "ALTER TABLE" (upper migration_file)
    then append_to "recommendations"
           (VStr "Consider adding rollback SQL for ALTER TABLE operations")
           validation_results
    else validation_results in
  Comp.ret validation_results.

Definition validate_migration_safety (migration_file project_id : string)
  : Comp.M Clock dict :=
  Comp.try_except
    (validate_migration_safety_try migration_file project_id)
    (fun e =>
       if isinstance e Exception then
         Some (Comp.ret [ ("error", VStr (exn_str e));
                          ("migration_file", VStr migration_file) ])
       else None).

End Migration.

End Supabase.

(** * The installation script ([install_gpt_researcher_mcp.py]) *)

Module Installer.

(** How [subprocess.run(command, shell=True, check=True, ...)] ends: with
    exit status zero, with a [CalledProcessError] (its text, its captured
    output and errors), or with some other exception. *)
Inductive run_outcome : Type :=
| Completed
| CalledProcessError (message stdout stderr : string)
| Crashed (e : exn).

Section Install.

(** The machine the commands run on. *)
Variable Shell : Type.
Variable subprocess_run : string -> Shell -> run_outcome * Shell.

(** How an f-string prints an integer. *)
Variable fmt_int : Z -> string.

Record machine : Type := mk_machine {
  shell : Shell;
  ran : list (string * bool); (* the commands handed to the shell, in order,
                                 each with whether it exited with status 0 *)
  printed : list string       (* the lines printed, in order *)
}.

Abbreviation M := (Comp.M machine).

Definition print (line : string) : M unit :=
  fun m => (Ok tt, mk_machine (shell m) (ran m) (printed m ++ [line])%list).

Definition run (command : string) : M run_outcome :=
  fun m =>
    let '(outcome, sh) := subprocess_run command (shell m) in
    (Ok outcome,
     mk_machine sh
       (ran m ++ [(command, match outcome with Completed => true | _ => false end)])%list
       (printed m)).

Definition run_command (command description : string) : M bool :=
  print ("Running: " ++ description) ;;;
  outcome <- run command ;;
  match outcome with
  | Completed =>
      print ("✓ " ++ description ++ " completed successfully") ;;;
      Comp.ret true
  | CalledProcessError message stdout stderr =>
      print ("✗ " ++ description ++ " failed: " ++ message) ;;;
      Comp.when (negb (String.eqb stdout "")) (print ("stdout: " ++ stdout)) ;;;
      Comp.when (negb (String.eqb stderr "")) (print ("stderr: " ++ stderr)) ;;;
      Comp.ret false
  | Crashed e => Comp.raise e
  end.


(** The loop of [install_dependencies]. *)
Fixpoint install_each (dependencies : list string) : M bool :=
  match dependencies with
  | [] => Comp.ret true
  | dep :: rest =>
      installed <- run_command ("pip install " ++ dep) ("Installing " ++ dep) ;;
      if negb installed then Comp.ret false else install_each rest
  end.

Definition dependencies : list string :=
  ["gpt-researcher"; "fastmcp"; "pydantic"; "httpx"; "uvicorn"].

Definition install_dependencies : M bool :=
  print "Installing dependencies..." ;;;
  install_each dependencies.

End Install.

Arguments mk_machine {Shell} _ _ _.
Arguments shell {Shell} _.
Arguments ran {Shell} _.
Arguments printed {Shell} _.

End Installer.

(** A machine on which [pip] knows every package but [pydantic], for
    running the installer on a concrete input. *)
Definition sample_shell (command : string) (n : nat)
  : Installer.run_outcome * nat :=
  (if String.eqb command "pip install pydantic"
   then Installer.CalledProcessError
          "Command 'pip install pydantic' returned non-zero exit status 1."
          "" "ERROR: No matching distribution found for pydantic"
   else Installer.Completed, S n).

Definition sample_machine : Installer.machine nat :=
  Installer.mk_machine 0 [] [].



(** * Properties of the tool functions *)

(** One step of reading a computation backwards: split on the innermost
    scrutinee of the equation [H]. *)
Ltac comp_step H :=
  match type of H with
  | context [match ?c with _ => _ end] =>
      lazymatch c with
      | context [match _ with _ => _ end] => fail
      | _ => destruct c eqn:?
      end
  end.

Ltac comp_inv H :=
  repeat (comp_step H; try discriminate H);
  try (injection H as <- <-).

Ltac unfold_comp :=
  unfold Comp.try_except, Comp.bind, Comp.when, Comp.lift, Comp.ret,
    Comp.raise in *.

Section ToolProperties.

Variable LibState : Type.
Variable Researcher : Type.
Variable ext : external LibState Researcher.

(** What the [try:] block of [conduct_research] returns when it returns. *)
Lemma conduct_research_try_returns q rt rs mi dp r mc w d w' :
  conduct_research_try ext q rt rs mi dp r mc w = (Ok d, w') ->
  exists report citations timestamp steps total,
    d = [ ("success", VBool true);
          ("query", VStr q);
          ("report", report);
          ("citations", citations);
          ("metadata",
             VDict [ ("query", VStr q);
                     ("report_type", VStr rt);
                     ("report_source", VStr rs);
                     ("max_iterations", VInt mi);
                     ("retriever", VStr r);
                     ("timestamp", timestamp);
                     ("research_steps", steps);
                     ("total_sources", VInt total) ]);
          ("error", VNone) ].
Proof.
  unfold conduct_research_try. unfold_comp. intros H.
  comp_inv H; eauto 10.
Qed.

(** What the [try:] block of [deep_research] returns when it returns. *)
Lemma deep_research_try_returns q depth breadth mi w d w' :
  deep_research_try ext q depth breadth mi w = (Ok d, w') ->
  exists report citations timestamp tree total subtopics,
    d = [ ("success", VBool true);
          ("query", VStr q);
          ("report", report);
          ("citations", citations);
          ("metadata",
             VDict [ ("query", VStr q);
                     ("research_type", VStr "deep_research");
                     ("depth", VInt depth);
                     ("breadth", VInt breadth);
                     ("max_iterations", VInt mi);
                     ("timestamp", timestamp);
                     ("research_tree", tree);
                     ("total_sources", VInt total);
                     ("subtopics_explored", subtopics) ]);
          ("error", VNone) ].
Proof.
  unfold deep_research_try. unfold_comp. intros H.
  comp_inv H; eauto 10.
Qed.

(** [conduct_research] by the outcome of its [try:] block. *)
Lemma conduct_research_outcome q rt rs mi dp r mc w :
  conduct_research ext q rt rs mi dp r mc w =
  match conduct_research_try ext q rt rs mi dp r mc w with
  | (Ok d, w') => (Ok d, w')
  | (Raise e, w') =>
      if isinstance e ImportError then
        (Ok [ ("success", VBool false); ("query", VStr q);
              ("report", VStr ""); ("citations", VList []);
              ("metadata", VDict []);
              ("error", VStr "GPT Researcher not installed. Install with: pip install gpt-researcher") ],
         w')
      else if isinstance e Exception then
        (Ok [ ("success", VBool false); ("query", VStr q);
              ("report", VStr ""); ("citations", VList []);
              ("metadata", VDict []);
              ("error", VStr ("Research failed: " ++ exn_str e)) ],
         w')
      else (Raise e, w')
  end.
Proof.
  unfold conduct_research, conduct_research_except, Comp.try_except, Comp.ret.
  destruct (conduct_research_try ext q rt rs mi dp r mc w) as [[d | e] w'];
    [reflexivity |].
  destruct (isinstance e ImportError); [reflexivity |].
  destruct (isinstance e Exception); reflexivity.
Qed.

(** [deep_research] by the outcome of its [try:] block. *)
Lemma deep_research_outcome q depth breadth mi w :
  deep_research ext q depth breadth mi w =
  match deep_research_try ext q depth breadth mi w with
  | (Ok d, w') => (Ok d, w')
  | (Raise e, w') =>
      if isinstance e ImportError then
        (Ok [ ("success", VBool false); ("query", VStr q);
              ("report", VStr ""); ("citations", VList []);
              ("metadata", VDict []);
              ("error", VStr "GPT Researcher not installed. Install with: pip install gpt-researcher") ],
         w')
      else if isinstance e Exception then
        (Ok [ ("success", VBool false); ("query", VStr q);
              ("report", VStr ""); ("citations", VList []);
              ("metadata", VDict []);
              ("error", VStr ("Deep research failed: " ++ exn_str e)) ],
         w')
      else (Raise e, w')
  end.
Proof.
  unfold deep_research, deep_research_except, Comp.try_except, Comp.ret.
  destruct (deep_research_try ext q depth breadth mi w) as [[d | e] w'];
    [reflexivity |].
  destruct (isinstance e ImportError); [reflexivity |].
  destruct (isinstance e Exception); reflexivity.
Qed.

(** An exception raised by the import at the head of a [try:] block is the
    exception the block raises. *)
Lemma import_failure_leaves_try_block c body w e w' :
  try_block ext c = Some body ->
  import_from ext "gpt_researcher" "GPTResearcher" w = (Raise e, w') ->
  body w = (Raise e, w').
Proof.
  destruct c; simpl; try discriminate; intros [= <-] Himp.
  - unfold conduct_research_try, Comp.bind. now rewrite Himp.
  - unfold deep_research_try, Comp.bind. now rewrite Himp.
Qed.


End ToolProperties.

(** ** Failures are returned, not raised *)





(** ** The shape of a result *)

(** C2.  In every dictionary a tool returns, [success] is a boolean that is
    true exactly when [error] is [None], and exactly one of the payload
    (report, citations, metadata, capabilities or validation results) and
    the error description is populated. *)
Theorem success_and_error_exclusive
    {LibState Researcher} (ext : external LibState Researcher)
    (c : tool_call) (w w' : world LibState) (d : dict) :
  run_tool ext c w = (Ok d, w') ->
  (exists b, dict_get "success" d = Some (VBool b) /\
             (b = true <-> dict_get "error" d = Some VNone)) /\
  xorb (payload_populated d) (error_populated d) = true.
Proof.
  assert (Hgood : forall q report citations md,
    md <> [] ->
    let d := [ ("success", VBool true); ("query", VStr q); ("report", report);
               ("citations", citations); ("metadata", VDict md);
               ("error", VNone) ] in
    (exists b, dict_get "success" d = Some (VBool b) /\
               (b = true <-> dict_get "error" d = Some VNone)) /\
    xorb (payload_populated d) (error_populated d) = true).
  { intros q report citations md Hmd. split.
    - exists true. simpl. repeat split; reflexivity.
    - unfold payload_populated, error_populated, populated. simpl.
      destruct md; [contradiction |].
      now rewrite !orb_true_r. }
  assert (Hbad : forall q msg,
    msg <> "" ->
    let d := [ ("success", VBool false); ("query", VStr q); ("report", VStr "");
               ("citations", VList []); ("metadata", VDict []);
               ("error", VStr msg) ] in
    (exists b, dict_get "success" d = Some (VBool b) /\
               (b = true <-> dict_get "error" d = Some VNone)) /\
    xorb (payload_populated d) (error_populated d) = true).
  { intros q msg Hmsg. split.
    - exists false. simpl. split; [reflexivity | split; discriminate].
    - unfold payload_populated, error_populated, populated. simpl.
      destruct msg; [contradiction | reflexivity]. }
  assert (Hconduct : forall q rt rs mi dp r mc,
    conduct_research ext q rt rs mi dp r mc w = (Ok d, w') ->
    (exists b, dict_get "success" d = Some (VBool b) /\
               (b = true <-> dict_get "error" d = Some VNone)) /\
    xorb (payload_populated d) (error_populated d) = true).
  { intros q rt rs mi dp r mc H. rewrite conduct_research_outcome in H.
    destruct (conduct_research_try _ _ _ _ _ _ _ _ w) as [[d0 | e] w1] eqn:Hb.
    - injection H as <- <-.
      apply conduct_research_try_returns in Hb
        as (report & citations & ts & steps & total & ->).
      apply Hgood. discriminate.
    - destruct (isinstance e ImportError);
        [| destruct (isinstance e Exception)]; try discriminate H;
        injection H as <- <-; apply Hbad; discriminate. }
  intros H. destruct c; simpl in H.
  - eapply Hconduct; eassumption.
  - eapply Hconduct; eassumption.
  - rewrite deep_research_outcome in H.
    destruct (deep_research_try _ _ _ _ _ w) as [[d0 | e] w1] eqn:Hb.
    + injection H as <- <-.
      apply deep_research_try_returns in Hb
        as (report & citations & ts & tree & total & sub & ->).
      apply Hgood. discriminate.
    + destruct (isinstance e ImportError);
        [| destruct (isinstance e Exception)]; try discriminate H;
        injection H as <- <-; apply Hbad; discriminate.
  - eapply Hconduct; eassumption.
  - unfold get_research_capabilities in H. unfold_comp.
    comp_inv H; (split; [eexists; split; [reflexivity |]; simpl |]);
      try tauto; try (split; discriminate); reflexivity.
  - unfold validate_research_setup in H. simpl in H. unfold_comp.
    comp_inv H; (split; [eexists; split; [reflexivity |]; simpl; tauto |]);
      reflexivity.
Qed.

Lemma success_and_error_exclusive_witness :
  (exists b,
     dict_get "success"
       [ ("success", VBool false);
         ("query", VStr "What is artificial intelligence?");
         ("report", VStr ""); ("citations", VList []);
         ("metadata", VDict []);
         ("error", VStr "GPT Researcher not installed. Install with: pip install gpt-researcher") ]
     = Some (VBool b) /\
     (b = true <->
      dict_get "error"
        [ ("success", VBool false);
          ("query", VStr "What is artificial intelligence?");
          ("report", VStr ""); ("citations", VList []);
          ("metadata", VDict []);
          ("error", VStr "GPT Researcher not installed. Install with: pip install gpt-researcher") ]
      = Some VNone)) /\
  xorb
    (payload_populated
       [ ("success", VBool false);
         ("query", VStr "What is artificial intelligence?");
         ("report", VStr ""); ("citations", VList []);
         ("metadata", VDict []);
         ("error", VStr "GPT Researcher not installed. Install with: pip install gpt-researcher") ])
    (error_populated
       [ ("success", VBool false);
         ("query", VStr "What is artificial intelligence?");
         ("report", VStr ""); ("citations", VList []);
         ("metadata", VDict []);
         ("error", VStr "GPT Researcher not installed. Install with: pip install gpt-researcher") ])
  = true.
Proof.
  apply (success_and_error_exclusive ext_missing sample_call
           sample_world sample_world).
  reflexivity.
Defined.

(** ** The dependency is not installed *)

(** C6.  When importing [GPTResearcher] raises an [ImportError],
    [conduct_research] and [deep_research] return the failure result with
    the installation hint as its error, an empty report, no citations and
    no metadata. *)
Theorem not_installed_result
    {LibState Researcher} (ext : external LibState Researcher)
    (c : tool_call) (q : string) (w w' : world LibState) (e : exn) :
  try_block ext c <> None ->
  query_of c = Some q ->
  import_from ext "gpt_researcher" "GPTResearcher" w = (Raise e, w') ->
  isinstance e ImportError = true ->
  run_tool ext c w =
    (Ok [ ("success", VBool false);
          ("query", VStr q);
          ("report", VStr "");
          ("citations", VList []);
          ("metadata", VDict []);
          ("error", VStr "GPT Researcher not installed. Install with: pip install gpt-researcher") ],
     w').
Proof.
  intros Hc Hq Himp Hcls.
  destruct (try_block ext c) as [body |] eqn:Hbody; [clear Hc | contradiction].
  pose proof (import_failure_leaves_try_block _ _ ext c body w e w' Hbody Himp) as Hraise.
  destruct c; simpl in Hbody; try discriminate;
    injection Hbody as <-; injection Hq as <-; simpl.
  - now rewrite conduct_research_outcome, Hraise, Hcls.
  - now rewrite deep_research_outcome, Hraise, Hcls.
Qed.

Lemma not_installed_result_witness :
  run_tool ext_missing (call_deep_research "Test deep research query" 2 3 2)
    sample_world =
    (Ok [ ("success", VBool false);
          ("query", VStr "Test deep research query");
          ("report", VStr "");
          ("citations", VList []);
          ("metadata", VDict []);
          ("error", VStr "GPT Researcher not installed. Install with: pip install gpt-researcher") ],
     sample_world).
Proof.
  apply (not_installed_result ext_missing
           (call_deep_research "Test deep research query" 2 3 2)
           "Test deep research query" sample_world sample_world
           (mk_exn ImportError "No module named 'gpt_researcher'")).
  - discriminate.
  - reflexivity.
  - reflexivity.
  - reflexivity.
Defined.

(** ** The wrappers *)

(** C9.  [research_local_documents] and [hybrid_research_with_mcp] are
    [conduct_research] at fixed arguments: the same result and the same
    effect on the world, whatever the arguments and the world. *)
Theorem wrappers_are_conduct_research
    {LibState Researcher} (ext : external LibState Researcher)
    (query doc_path report_type : string) (mcp_configs : list value)
    (w : world LibState) :
  research_local_documents ext query doc_path report_type w =
    conduct_research ext query report_type "local" 3 (Some doc_path)
      "local" None w
  /\
  hybrid_research_with_mcp ext query mcp_configs report_type w =
    conduct_research ext query report_type "web" 3 None
      "tavily,mcp" (Some mcp_configs) w.
Proof.
  split.
  - unfold research_local_documents, conduct_research_fn, or_default.
    cbn [kw_query kw_report_type kw_report_source kw_max_iterations
         kw_doc_path kw_retriever kw_mcp_configs].
    reflexivity.
  - unfold hybrid_research_with_mcp, conduct_research_fn, or_default.
    cbn [kw_query kw_report_type kw_report_source kw_max_iterations
         kw_doc_path kw_retriever kw_mcp_configs].
    reflexivity.
Qed.

(** ** The query is echoed *)



(** * Properties of validation, registration and dispatch *)

(** On an empty input the validator substitutes every default and reports
    exactly the mandatory fields, in schema order. *)
Lemma check_fields_empty_input (s : schema) :
  snd (check_fields s []) = map MissingField (mandatory s).
Proof.
  unfold mandatory.
  induction s as [| f s IH]; [reflexivity |].
  simpl. destruct (check_fields s []) as [defaults violations].
  simpl in IH. destruct (default f) as [dv |]; simpl.
  - now rewrite andb_false_r.
  - rewrite andb_true_r. destruct (required f); simpl; now rewrite IH.
Qed.

Lemma dict_get_app_nil (k : string) (d : dict) :
  dict_get k (d ++ [])%list = dict_get k d.
Proof. now rewrite app_nil_r. Qed.

(** A name that no descriptor carries is not found. *)
Lemma lookup_unregistered {D} `{Keyed D} (namespace : list D) (n : string) :
  ~ In n (map key_of namespace) ->
  lookup namespace n = inl (NotFoundError n).
Proof.
  induction namespace as [| d rest IH]; simpl; intros Hn; [reflexivity |].
  destruct (String.eqb_spec (key_of d) n) as [Heq | Hne].
  - exfalso. apply Hn. now left.
  - apply IH. intros Hin. apply Hn. now right.
Qed.

(** A successful startup appends the descriptors in program order and
    keeps the names distinct. *)
Lemma register_all_in_order {D} `{Keyed D} (ds namespace registered : list D) :
  register_all ds namespace = inr registered ->
  registered = (namespace ++ ds)%list /\
  (NoDup (map key_of namespace) -> NoDup (map key_of registered)).
Proof.
  revert namespace. induction ds as [| d ds IH]; simpl; intros namespace Hreg.
  - injection Hreg as <-. now rewrite app_nil_r.
  - unfold register in Hreg.
    destruct (existsb _ namespace) eqn:Hdup; [discriminate |].
    apply IH in Hreg as [-> Hnodup]. split.
    + now rewrite <- app_assoc.
    + intros Hns. apply Hnodup. rewrite map_app. simpl.
      apply NoDup_app. repeat split; trivial.
      * constructor; [intros [] | constructor].
      * intros k Hk [<- | []].
        apply in_map_iff in Hk as (d' & Hkey & Hin).
        assert (existsb (fun d' => String.eqb (key_of d') (key_of d)) namespace = true)
          as Hex; [| congruence].
        apply existsb_exists. exists d'. split; [assumption |].
        now apply String.eqb_eq.
Qed.

(** The spy leaves names and schemas as they are. *)
Lemma spy_on_names {W} (operations : list (OperationDescriptor W)) :
  map key_of (map spy_on operations) = map key_of operations.
Proof. rewrite map_map. reflexivity. Qed.

(** ** Missing fields *)

(** C3.  The validator reports every missing mandatory field in one pass:
    a call of [conduct_research] with the empty input is answered with the
    single violation [MissingField "query"], and a call of
    [hybrid_research_with_mcp] with the two violations for [query] and
    [mcp_configs]; neither handler runs. *)
Theorem empty_input_violations
    {LibState Researcher} (ext : external LibState Researcher)
    (w : world LibState) :
  (forall s : schema,
     validate s [] =
       match mandatory s with
       | [] => Valid (fst (check_fields s []))
       | missing => Invalid (map MissingField missing)
       end) /\
  dispatch (tools ext) "conduct_research" [] w =
    (failed (ValidationError [MissingField "query"]), w) /\
  dispatch (tools ext) "hybrid_research_with_mcp" [] w =
    (failed (ValidationError [MissingField "query"; MissingField "mcp_configs"]), w).
Proof.
  split; [| split; reflexivity].
  intros s. unfold validate.
  pose proof (check_fields_empty_input s) as Hs.
  destruct (check_fields s []) as [defaults violations]. simpl in Hs. subst.
  destruct (mandatory s); reflexivity.
Qed.

(** ** Unregistered names *)

(** C5.  A call to a name that is not registered is answered with the
    [NotFound] envelope and runs no handler: with a spy around every
    registered handler the invocation count stays at zero, and the world
    is untouched. *)
Theorem unregistered_name_not_found
    {W} (operations : list (OperationDescriptor W))
    (n : string) (input : dict) (w : W) :
  ~ In n (map name operations) ->
  dispatch (map spy_on operations) n input (0, w) =
    ({| success := false; payload := None; error := Some (NotFound n) |},
     (0, w)).
Proof.
  intros Hn. unfold dispatch.
  rewrite lookup_unregistered; [reflexivity |].
  now rewrite spy_on_names.
Qed.

Lemma unregistered_name_not_found_witness :
  dispatch (map spy_on (tools ext_working)) "missing" [] (0, sample_world) =
    ({| success := false; payload := None; error := Some (NotFound "missing") |},
     (0, sample_world)).
Proof.
  apply (unregistered_name_not_found (tools ext_working) "missing" []
           sample_world).
  simpl. intros H.
  repeat (destruct H as [H | H]; [discriminate H |]). exact H.
Defined.

(** The spy does count: a call that reaches a handler is counted once. *)
Example spy_counts_an_invocation :
  snd (dispatch (map spy_on (tools ext_working))
         "get_research_capabilities" [] (0, sample_world)) = (1, sample_world).
Proof. reflexivity. Qed.

(** ** Enumeration *)

(** C7.  Startup registers the six tools without a duplicate, and
    [ListOperations] names them once each, in the order of their
    decorators. *)
Theorem list_operations_in_registration_order
    {LibState Researcher} (ext : external LibState Researcher) :
  exists operations,
    server_operations ext = inr operations /\
    map fst (ListOperations operations) =
      [ "conduct_research"; "research_local_documents"; "deep_research";
        "hybrid_research_with_mcp"; "get_research_capabilities";
        "validate_research_setup" ] /\
    NoDup (map fst (ListOperations operations)).
Proof.
  destruct (server_operations ext) as [err | operations] eqn:Hreg;
    [discriminate Hreg |].
  exists operations. split; [reflexivity |].
  unfold server_operations in Hreg.
  apply register_all_in_order in Hreg as [-> Hnodup].
  split; [reflexivity |].
  unfold ListOperations, listAll. rewrite map_map. simpl.
  apply (Hnodup (NoDup_nil _)).
Qed.

(** ** The range of max_iterations *)

(** C4.  The schema of [conduct_research] declares [max_iterations] as a
    plain integer, so no integer is out of range for it: the call of the
    test suite with [max_iterations=15] passes validation, the handler
    runs once, and the value reaches the metadata of the result. *)
Theorem max_iterations_15_is_accepted :
  (forall z : Z, check_type "max_iterations" TNumber (VInt z) = None) /\
  validate conduct_research_schema
    [("query", VStr "Test query"); ("max_iterations", VInt 15)] =
    Valid [ ("query", VStr "Test query"); ("max_iterations", VInt 15);
            ("report_type", VStr "research_report");
            ("report_source", VStr "web"); ("doc_path", VNone);
            ("retriever", VStr "tavily"); ("mcp_configs", VNone) ] /\
  (exists d w',
     conduct_research ext_working "Test query" "research_report" "web" 15
       None "tavily" None sample_world = (Ok d, w') /\
     dict_get "success" d = Some (VBool true) /\
     (exists metadata,
        dict_get "metadata" d = Some (VDict metadata) /\
        dict_get "max_iterations" metadata = Some (VInt 15)) /\
     dispatch (map spy_on (tools ext_working)) "conduct_research"
       [("query", VStr "Test query"); ("max_iterations", VInt 15)]
       (0, sample_world) = (succeeded (VDict d), (1, w'))).
Proof.
  split; [reflexivity |]. split; [reflexivity |].
  eexists. eexists. split; [reflexivity |].
  split; [reflexivity |]. split; [| reflexivity].
  eexists. split; reflexivity.
Qed.

(** * Further properties of the research tools *)

Section Frame.

Variable LibState : Type.
Variable Researcher : Type.
Variable ext : external LibState Researcher.

Lemma keeps_environ_ret {A} (a : A) :
  keeps_environ (Comp.ret (W := world LibState) a).
Proof. intros w. reflexivity. Qed.

Lemma keeps_environ_lift {A} (r : result A) :
  keeps_environ (Comp.lift (W := world LibState) r).
Proof. intros w. reflexivity. Qed.

Lemma keeps_environ_bind {A B} (c : Comp.M (world LibState) A)
    (k : A -> Comp.M (world LibState) B) :
  keeps_environ c -> (forall a, keeps_environ (k a)) ->
  keeps_environ (Comp.bind c k).
Proof.
  intros Hc Hk w. unfold Comp.bind.
  specialize (Hc w). destruct (c w) as [[a | e] w1]; simpl in *.
  - now rewrite Hk.
  - assumption.
Qed.

(** Whatever follows the two assignments in the [try:] block of
    [conduct_research] leaves [os.environ] alone when the package does. *)
Lemma conduct_research_tail_keeps_environ q rt rs mi r mc :
  quiet ext ->
  keeps_environ
    (researcher <- GPTResearcher ext q rt rs (Some (or_empty mc)) ;;
     research_result <- run_conduct_research ext researcher ;;
     report <- run_write_report ext researcher ;;
     timestamp <- run_get_timestamp ext researcher ;;
     total_sources <- Comp.lift
                        (py_len (getattr research_result "citations" (VList []))) ;;
     Comp.ret
       [ ("success", VBool true);
         ("query", VStr q);
         ("report", report);
         ("citations", getattr research_result "citations" (VList []));
         ("metadata",
            VDict
              [ ("query", VStr q);
                ("report_type", VStr rt);
                ("report_source", VStr rs);
                ("max_iterations", VInt mi);
                ("retriever", VStr r);
                ("timestamp", timestamp);
                ("research_steps",
                   getattr research_result "research_steps" (VList []));
                ("total_sources", VInt total_sources) ]);
         ("error", VNone) ]).
Proof.
  intros Hq.
  repeat (apply keeps_environ_bind; [| intros ?]);
    first [ apply Hq | apply keeps_environ_lift | apply keeps_environ_ret ].
Qed.

(** [os.environ] after the [try:] block of [conduct_research]: untouched
    when the import fails, and otherwise extended by the two assignments,
    whether the research then succeeds or not. *)
Lemma conduct_research_try_environ q rt rs mi dp r mc w :
  quiet ext ->
  match dp with Some p => has_nul p = false | None => True end ->
  has_nul r = false ->
  environ (snd (conduct_research_try ext q rt rs mi dp r mc w)) =
    match fst (import_from ext "gpt_researcher" "GPTResearcher" w) with
    | Ok _ => exported dp r (environ w)
    | Raise _ => environ w
    end.
Proof.
  intros Hq Hdp Hr.
  pose proof (quiet_import_from ext Hq "gpt_researcher" "GPTResearcher" w) as Himp.
  pose proof (conduct_research_tail_keeps_environ q rt rs mi r mc Hq) as Htail.
  unfold conduct_research_try, exported.
  unfold Comp.bind at 1.
  destruct (import_from ext "gpt_researcher" "GPTResearcher" w) as [[[] | e] w1];
    simpl in Himp |- *; [| assumption].
  rewrite <- Himp. clear Himp.
  unfold Comp.bind at 1.
  destruct dp as [p |].
  - unfold Comp.when. destruct (String.eqb p ""); simpl.
    + unfold Comp.bind at 1. unfold Comp.when.
      destruct (String.eqb r ""); simpl.
      * apply Htail.
      * unfold environ_assign. fold (has_nul r). rewrite Hr. apply Htail.
    + unfold environ_assign at 1. fold (has_nul p). rewrite Hdp.
      unfold Comp.bind at 1. unfold Comp.when.
      destruct (String.eqb r ""); simpl.
      * apply Htail.
      * unfold environ_assign. fold (has_nul r). rewrite Hr. apply Htail.
  - simpl. unfold Comp.bind at 1. unfold Comp.when.
    destruct (String.eqb r ""); simpl.
    + apply Htail.
    + unfold environ_assign. fold (has_nul r). rewrite Hr. apply Htail.
Qed.

(** The [except] clauses of [conduct_research] do not touch the world. *)
Lemma conduct_research_world q rt rs mi dp r mc w :
  snd (conduct_research ext q rt rs mi dp r mc w) =
  snd (conduct_research_try ext q rt rs mi dp r mc w).
Proof.
  rewrite conduct_research_outcome.
  destruct (conduct_research_try ext q rt rs mi dp r mc w) as [[d | e] w1];
    [reflexivity |].
  destruct (isinstance e ImportError); [reflexivity |].
  destruct (isinstance e Exception); reflexivity.
Qed.

Lemma conduct_research_environ q rt rs mi dp r mc w :
  quiet ext ->
  match dp with Some p => has_nul p = false | None => True end ->
  has_nul r = false ->
  environ (snd (conduct_research ext q rt rs mi dp r mc w)) =
    match fst (import_from ext "gpt_researcher" "GPTResearcher" w) with
    | Ok _ => exported dp r (environ w)
    | Raise _ => environ w
    end.
Proof.
  intros Hq Hdp Hr.
  rewrite conduct_research_world.
  now apply conduct_research_try_environ.
Qed.

End Frame.

Lemma environ_get_set_same (k v : string) (env : environ_t) :
  environ_get k (environ_set k v env) = Some v.
Proof.
  induction env as [| [k' v'] env IH]; simpl.
  - now rewrite String.eqb_refl.
  - destruct (String.eqb k k') eqn:Hk; simpl.
    + now rewrite String.eqb_refl.
    + now rewrite Hk.
Qed.

Lemma environ_get_set_other (k k' v : string) (env : environ_t) :
  k <> k' ->
  environ_get k (environ_set k' v env) = environ_get k env.
Proof.
  intros Hne. apply String.eqb_neq in Hne.
  induction env as [| [k0 v0] env IH]; simpl.
  - now rewrite Hne.
  - destruct (String.eqb k' k0) eqn:Hk; simpl.
    + apply String.eqb_eq in Hk as <-. now rewrite Hne.
    + destruct (String.eqb k k0); [reflexivity | assumption].
Qed.

(** ** What conduct_research leaves in os.environ *)

(** X1.  [conduct_research] writes [doc_path] and [retriever] into the
    process-wide [os.environ] once the import has succeeded, and they stay
    there when the call is over, whether the research succeeded or failed;
    when the import fails nothing is written. *)
Theorem conduct_research_exports_its_arguments
    {LibState Researcher} (ext : external LibState Researcher)
    (q rt rs : string) (mi : Z) (dp : option string) (r : string)
    (mc : option (list value)) (w : world LibState) :
  quiet ext ->
  match dp with Some p => has_nul p = false | None => True end ->
  has_nul r = false ->
  environ (snd (conduct_research ext q rt rs mi dp r mc w)) =
    match fst (import_from ext "gpt_researcher" "GPTResearcher" w) with
    | Ok _ => exported dp r (environ w)
    | Raise _ => environ w
    end.
Proof.
  intros Hq Hdp Hr.
  rewrite conduct_research_world.
  now apply conduct_research_try_environ.
Qed.

Lemma conduct_research_exports_its_arguments_witness :
  environ
    (snd (conduct_research ext_failing "Test query" "research_report" "local"
            3 (Some "/nonexistent/path") "local" None sample_world)) =
  [("DOC_PATH", "/nonexistent/path"); ("RETRIEVER", "local")].
Proof.
  apply (conduct_research_exports_its_arguments ext_failing "Test query"
           "research_report" "local" 3 (Some "/nonexistent/path") "local"
           None sample_world).
  - constructor; repeat intro; reflexivity.
  - reflexivity.
  - reflexivity.
Defined.

(** X2.  A [doc_path] given to [research_local_documents] outlives the
    call: a later [conduct_research] without a [doc_path] still runs with
    [DOC_PATH] set to the earlier directory. *)
Theorem doc_path_outlives_the_call
    {LibState Researcher} (ext : external LibState Researcher)
    (q dp rt q2 rt2 rs2 : string) (mi2 : Z) (r2 : string)
    (mc2 : option (list value)) (w : world LibState) :
  quiet ext ->
  fst (import_from ext "gpt_researcher" "GPTResearcher" w) = Ok tt ->
  dp <> "" ->
  has_nul dp = false ->
  environ_get "DOC_PATH"
    (environ
       (snd (conduct_research ext q2 rt2 rs2 mi2 None r2 mc2
               (snd (research_local_documents ext q dp rt w))))) = Some dp.
Proof.
  intros Hq Himp Hdp Hnul.
  assert (Hfirst :
    environ_get "DOC_PATH"
      (environ (snd (research_local_documents ext q dp rt w))) = Some dp).
  { unfold research_local_documents, conduct_research_fn, or_default.
    cbn [kw_query kw_report_type kw_report_source kw_max_iterations
         kw_doc_path kw_retriever kw_mcp_configs].
    rewrite conduct_research_environ;
      [| assumption | assumption | reflexivity].
    rewrite Himp. unfold exported.
    apply String.eqb_neq in Hdp. rewrite Hdp. simpl.
    rewrite environ_get_set_other by discriminate.
    apply environ_get_set_same. }
  set (w1 := snd (research_local_documents ext q dp rt w)) in *.
  rewrite conduct_research_world.
  unfold conduct_research_try. unfold Comp.bind at 1.
  pose proof (quiet_import_from ext Hq "gpt_researcher" "GPTResearcher" w1) as Hk.
  destruct (import_from ext "gpt_researcher" "GPTResearcher" w1)
    as [[[] | e] w2]; simpl in Hk |- *; [| now rewrite Hk].
  unfold Comp.bind at 1. simpl.
  unfold Comp.bind at 1. unfold Comp.when.
  pose proof (conduct_research_tail_keeps_environ _ _ ext q2 rt2 rs2 mi2 r2 mc2 Hq)
    as Htail.
  destruct (String.eqb r2 ""); simpl.
  - rewrite Htail, Hk. exact Hfirst.
  - unfold environ_assign. destruct (existsb _ _); simpl.
    + now rewrite Hk.
    + rewrite Htail. simpl.
      rewrite environ_get_set_other by discriminate.
      now rewrite Hk.
Qed.

Lemma doc_path_outlives_the_call_witness :
  environ_get "DOC_PATH"
    (environ
       (snd (conduct_research ext_working "What is artificial intelligence?"
               "research_report" "web" 1 None "tavily" None
               (snd (research_local_documents ext_working "Test query"
                       "/nonexistent/path" "research_report" sample_world)))))
  = Some "/nonexistent/path".
Proof.
  apply (doc_path_outlives_the_call ext_working "Test query"
           "/nonexistent/path" "research_report"
           "What is artificial intelligence?" "research_report" "web" 1
           "tavily" None sample_world).
  - constructor; repeat intro; reflexivity.
  - reflexivity.
  - discriminate.
  - reflexivity.
Defined.

(** One step of running two computations side by side: split on the
    innermost scrutinee of the goal. *)
Ltac goal_step :=
  match goal with
  | |- context [match ?c with _ => _ end] =>
      lazymatch c with
      | context [match _ with _ => _ end] => fail
      | _ => destruct c
      end
  end.

(** ** max_iterations *)

Lemma conduct_research_try_max_iterations
    {LibState Researcher} (ext : external LibState Researcher)
    (q rt rs : string) (mi mi' : Z) (dp : option string) (r : string)
    (mc : option (list value)) (w : world LibState) :
  conduct_research_try ext q rt rs mi' dp r mc w =
    (match fst (conduct_research_try ext q rt rs mi dp r mc w) with
     | Ok d => Ok (with_max_iterations mi' d)
     | Raise e => Raise e
     end,
     snd (conduct_research_try ext q rt rs mi dp r mc w)).
Proof.
  unfold conduct_research_try. unfold_comp.
  repeat (goal_step; cbn [fst snd]); reflexivity.
Qed.

(** X3.  [conduct_research] does nothing with [max_iterations] but copy it
    into the metadata of a successful result: two calls that differ only in
    [max_iterations] make the same external calls, fail alike, leave the same
    world, and return results that differ in that one metadata entry. *)
Theorem max_iterations_only_reaches_metadata
    {LibState Researcher} (ext : external LibState Researcher)
    (q rt rs : string) (mi mi' : Z) (dp : option string) (r : string)
    (mc : option (list value)) (w : world LibState) :
  conduct_research ext q rt rs mi' dp r mc w =
    (match fst (conduct_research ext q rt rs mi dp r mc w) with
     | Ok d => Ok (with_max_iterations mi' d)
     | Raise e => Raise e
     end,
     snd (conduct_research ext q rt rs mi dp r mc w)).
Proof.
  rewrite !conduct_research_outcome.
  rewrite (conduct_research_try_max_iterations ext q rt rs mi mi').
  destruct (conduct_research_try ext q rt rs mi dp r mc w) as [[d | e] w1];
    cbn [fst snd]; [reflexivity |].
  destruct (isinstance e ImportError); [reflexivity |].
  destruct (isinstance e Exception); reflexivity.
Qed.

(** ** Citations and their count *)

Lemma conduct_research_try_counts
    {LibState Researcher} (ext : external LibState Researcher)
    q rt rs mi dp r mc (w w' : world LibState) d :
  conduct_research_try ext q rt rs mi dp r mc w = (Ok d, w') ->
  exists citations metadata n,
    dict_get "citations" d = Some citations /\
    py_len citations = Ok n /\
    dict_get "metadata" d = Some (VDict metadata) /\
    dict_get "total_sources" metadata = Some (VInt n).
Proof.
  unfold conduct_research_try. unfold_comp. intros H.
  comp_inv H; do 3 eexists; repeat split; try reflexivity; eassumption.
Qed.

Lemma deep_research_try_counts
    {LibState Researcher} (ext : external LibState Researcher)
    q depth breadth mi (w w' : world LibState) d :
  deep_research_try ext q depth breadth mi w = (Ok d, w') ->
  exists citations metadata n,
    dict_get "citations" d = Some citations /\
    py_len citations = Ok n /\
    dict_get "metadata" d = Some (VDict metadata) /\
    dict_get "total_sources" metadata = Some (VInt n).
Proof.
  unfold deep_research_try. unfold_comp. intros H.
  comp_inv H; do 3 eexists; repeat split; try reflexivity; eassumption.
Qed.

(** X4.  In every successful result of the four research tools the
    citations have a length and [metadata["total_sources"]] is that length;
    a research result whose citations cannot be counted is therefore never
    reported as a success. *)
Theorem total_sources_counts_citations
    {LibState Researcher} (ext : external LibState Researcher)
    (c : tool_call) (q : string) (w w' : world LibState) (d : dict) :
  query_of c = Some q ->
  run_tool ext c w = (Ok d, w') ->
  dict_get "success" d = Some (VBool true) ->
  exists citations metadata n,
    dict_get "citations" d = Some citations /\
    py_len citations = Ok n /\
    dict_get "metadata" d = Some (VDict metadata) /\
    dict_get "total_sources" metadata = Some (VInt n).
Proof.
  assert (Hconduct : forall q rt rs mi dp r mc,
    conduct_research ext q rt rs mi dp r mc w = (Ok d, w') ->
    dict_get "success" d = Some (VBool true) ->
    exists citations metadata n,
      dict_get "citations" d = Some citations /\
      py_len citations = Ok n /\
      dict_get "metadata" d = Some (VDict metadata) /\
      dict_get "total_sources" metadata = Some (VInt n)).
  { clear q. intros q rt rs mi dp r mc H Hs.
    rewrite conduct_research_outcome in H.
    destruct (conduct_research_try _ _ _ _ _ _ _ _ w) as [[d0 | e] w1] eqn:Hb.
    - injection H as <- <-. eapply conduct_research_try_counts; eassumption.
    - destruct (isinstance e ImportError);
        [| destruct (isinstance e Exception)]; try discriminate H;
        injection H as <- <-; discriminate Hs. }
  intros Hq H Hs. destruct c; simpl in H, Hq; try discriminate Hq.
  - eapply Hconduct; eassumption.
  - eapply Hconduct; eassumption.
  - rewrite deep_research_outcome in H.
    destruct (deep_research_try _ _ _ _ _ w) as [[d0 | e] w1] eqn:Hb.
    + injection H as <- <-. eapply deep_research_try_counts; eassumption.
    + destruct (isinstance e ImportError);
        [| destruct (isinstance e Exception)]; try discriminate H;
        injection H as <- <-; discriminate Hs.
  - eapply Hconduct; eassumption.
Qed.

Lemma total_sources_counts_citations_witness :
  exists citations metadata n,
    dict_get "citations"
      (match fst (run_tool ext_working sample_call sample_world) with
       | Ok d => d
       | Raise _ => []
       end) = Some citations /\
    py_len citations = Ok n /\
    dict_get "metadata"
      (match fst (run_tool ext_working sample_call sample_world) with
       | Ok d => d
       | Raise _ => []
       end) = Some (VDict metadata) /\
    dict_get "total_sources" metadata = Some (VInt n).
Proof.
  apply (total_sources_counts_citations ext_working sample_call
           "What is artificial intelligence?" sample_world
           (mk_world [("RETRIEVER", "tavily")] tt)).
  - reflexivity.
  - reflexivity.
  - reflexivity.
Defined.

(** ** An ImportError after the import *)

(** X5.  The [except ImportError] clause covers the whole [try:] block:
    an [ImportError] raised at any point of it, also by the research itself
    after the package was imported, is reported as the package not being
    installed. *)
Theorem any_import_error_reads_as_not_installed
    {LibState Researcher} (ext : external LibState Researcher)
    (c : tool_call) (body : Comp.M (world LibState) dict) (q : string)
    (w w' : world LibState) (e : exn) :
  try_block ext c = Some body ->
  query_of c = Some q ->
  body w = (Raise e, w') ->
  isinstance e ImportError = true ->
  run_tool ext c w =
    (Ok [ ("success", VBool false);
          ("query", VStr q);
          ("report", VStr "");
          ("citations", VList []);
          ("metadata", VDict []);
          ("error", VStr "GPT Researcher not installed. Install with: pip install gpt-researcher") ],
     w').
Proof.
  intros Hbody Hq Hraise Hcls.
  destruct c; simpl in Hbody; try discriminate;
    injection Hbody as <-; injection Hq as <-; simpl.
  - now rewrite conduct_research_outcome, Hraise, Hcls.
  - now rewrite deep_research_outcome, Hraise, Hcls.
Qed.

Lemma any_import_error_reads_as_not_installed_witness :
  fst (import_from ext_lazy_import "gpt_researcher" "GPTResearcher" sample_world)
    = Ok tt /\
  run_tool ext_lazy_import sample_call sample_world =
    (Ok [ ("success", VBool false);
          ("query", VStr "What is artificial intelligence?");
          ("report", VStr "");
          ("citations", VList []);
          ("metadata", VDict []);
          ("error", VStr "GPT Researcher not installed. Install with: pip install gpt-researcher") ],
     mk_world [("RETRIEVER", "tavily")] tt).
Proof.
  split; [reflexivity |].
  apply (any_import_error_reads_as_not_installed ext_lazy_import sample_call
           (conduct_research_try ext_lazy_import
              "What is artificial intelligence?" "research_report" "web" 1
              None "tavily" None)
           "What is artificial intelligence?" sample_world
           (mk_world [("RETRIEVER", "tavily")] tt)
           (mk_exn ImportError "No module named 'langchain'")).
  - reflexivity.
  - reflexivity.
  - reflexivity.
  - reflexivity.
Defined.

(** ** get_research_capabilities *)

(** X6.  [get_research_capabilities] succeeds exactly when the import
    does, turns an [ImportError] into a failure result with empty
    capabilities, and, unlike the research tools, lets every other
    exception of the import out; it does nothing else to the world. *)
Theorem capabilities_follow_the_import
    {LibState Researcher} (ext : external LibState Researcher)
    (w : world LibState) :
  get_research_capabilities ext w =
    match import_from ext "gpt_researcher" "GPTResearcher" w with
    | (Ok _, w') =>
        (Ok [ ("success", VBool true);
              ("capabilities", VDict capabilities);
              ("error", VNone) ], w')
    | (Raise e, w') =>
        if isinstance e ImportError
        then (Ok [ ("success", VBool false);
                   ("capabilities", VDict []);
                   ("error", VStr "GPT Researcher not installed. Install with: pip install gpt-researcher") ],
              w')
        else (Raise e, w')
    end.
Proof.
  unfold get_research_capabilities. unfold_comp.
  destruct (import_from ext "gpt_researcher" "GPTResearcher" w)
    as [[[] | e] w']; [reflexivity |].
  destruct (isinstance e ImportError); reflexivity.
Qed.

(** ** Tools that do not write os.environ *)

(** An [except] clause that only returns a value. *)
Ltac returning_clause :=
  let e := fresh "e" in
  let block := fresh "block" in
  let H := fresh "H" in
  intros e block H; cbv beta in H;
  unfold deep_research_except in H;
  repeat match type of H with
         | context [if ?b then _ else _] => destruct b
         end;
  try discriminate H; injection H as <-; apply keeps_environ_ret.

Lemma keeps_environ_try_except {LibState A}
    (body : Comp.M (world LibState) A)
    (clauses : exn -> option (Comp.M (world LibState) A)) :
  keeps_environ body ->
  (forall e block, clauses e = Some block -> keeps_environ block) ->
  keeps_environ (Comp.try_except body clauses).
Proof.
  intros Hb Hc w. unfold Comp.try_except.
  specialize (Hb w). destruct (body w) as [[a | e] w1]; simpl in *;
    [assumption |].
  destruct (clauses e) as [block |] eqn:He; [| assumption].
  now rewrite (Hc e block He).
Qed.

Lemma check_optional_deps_keeps_environ
    {LibState Researcher} (ext : external LibState Researcher) deps acc :
  quiet ext -> keeps_environ (check_optional_deps _ _ ext deps acc).
Proof.
  intros Hq. revert acc.
  induction deps as [| [dep description] deps IH]; intros acc; simpl.
  - apply keeps_environ_ret.
  - apply keeps_environ_bind; [| intros found; apply IH].
    apply keeps_environ_try_except.
    + apply keeps_environ_bind; [apply Hq | intros; apply keeps_environ_ret].
    + returning_clause.
Qed.

(** X7.  Only [conduct_research] and its two wrappers write to
    [os.environ]: [deep_research], [get_research_capabilities] and
    [validate_research_setup] leave it as they found it, however they end. *)
Theorem other_tools_keep_environ
    {LibState Researcher} (ext : external LibState Researcher)
    (c : tool_call) (w : world LibState) :
  quiet ext ->
  match c with
  | call_deep_research _ _ _ _ => True
  | call_get_research_capabilities => True
  | call_validate_research_setup => True
  | _ => False
  end ->
  environ (snd (run_tool ext c w)) = environ w.
Proof.
  intros Hq Hc. revert w. change (keeps_environ (run_tool ext c)).
  destruct c; try contradiction; simpl; clear Hc.
  - unfold deep_research. apply keeps_environ_try_except.
    + unfold deep_research_try.
      repeat (apply keeps_environ_bind; [| intros ?]);
        first [ apply Hq | apply keeps_environ_lift | apply keeps_environ_ret ].
    + returning_clause.
  - unfold get_research_capabilities. apply keeps_environ_try_except.
    + apply keeps_environ_bind; [apply Hq | intros; apply keeps_environ_ret].
    + returning_clause.
  - unfold validate_research_setup.
    apply keeps_environ_bind; [| intros installed].
    + apply keeps_environ_try_except.
      * apply keeps_environ_bind; [apply Hq | intros; apply keeps_environ_ret].
      * returning_clause.
    + repeat (apply keeps_environ_bind; [intros ?; reflexivity | intros ?]).
      apply keeps_environ_bind; [| intros; apply keeps_environ_ret].
      now apply check_optional_deps_keeps_environ.
Qed.

Lemma other_tools_keep_environ_witness :
  environ (snd (run_tool ext_failing (call_deep_research "q" 2 3 2)
                  (mk_world [("RETRIEVER", "local")] tt)))
  = [("RETRIEVER", "local")].
Proof.
  apply (other_tools_keep_environ ext_failing (call_deep_research "q" 2 3 2)
           (mk_world [("RETRIEVER", "local")] tt)).
  - constructor; repeat intro; reflexivity.
  - exact I.
Defined.

(** * Properties of validate_research_setup *)

Lemma dict_get_set_same (k : string) (v : value) (d : dict) :
  dict_get k (dict_set k v d) = Some v.
Proof.
  induction d as [| [k' v'] d IH]; simpl.
  - now rewrite String.eqb_refl.
  - destruct (String.eqb k k') eqn:Hk; simpl.
    + now rewrite String.eqb_refl.
    + now rewrite Hk.
Qed.

Lemma dict_get_set_other (k k' : string) (v : value) (d : dict) :
  k <> k' ->
  dict_get k (dict_set k' v d) = dict_get k d.
Proof.
  intros Hne. apply String.eqb_neq in Hne.
  induction d as [| [k0 v0] d IH]; simpl.
  - now rewrite Hne.
  - destruct (String.eqb k' k0) eqn:Hk; simpl.
    + apply String.eqb_eq in Hk as <-. now rewrite Hne.
    + destruct (String.eqb k k0); [reflexivity | assumption].
Qed.

(** A key the loop does not visit keeps its entry. *)
Lemma check_api_keys_other api_keys configured instructions k :
  ~ In k (map fst api_keys) ->
  dict_get k (fst (check_api_keys api_keys configured instructions)) =
  dict_get k configured.
Proof.
  revert configured instructions.
  induction api_keys as [| [key v] rest IH]; intros configured instructions Hk;
    simpl; [reflexivity |].
  rewrite IH by (intros Hin; apply Hk; now right).
  apply dict_get_set_other. intros ->. apply Hk. now left.
Qed.

(** X8.  The loop over the API keys records every key it visits: for keys
    that are pairwise distinct, the entry of a key is [True] exactly when
    its variable is set to a non-empty string. *)
Theorem check_api_keys_records_each_key
    (api_keys : list (string * option string)) (configured : dict)
    (instructions : list value) (key : string) (v : option string) :
  NoDup (map fst api_keys) ->
  In (key, v) api_keys ->
  dict_get key (fst (check_api_keys api_keys configured instructions)) =
    Some (VBool (truthy_env v)).
Proof.
  revert configured instructions.
  induction api_keys as [| [key0 v0] rest IH];
    intros configured instructions Hnd Hin; [destruct Hin |].
  simpl in Hnd. inversion Hnd as [| ? ? Hfresh Hrest]; subst.
  simpl. destruct Hin as [[= -> ->] | Hin].
  - rewrite check_api_keys_other by assumption.
    apply dict_get_set_same.
  - now apply IH.
Qed.

Lemma check_api_keys_records_each_key_witness :
  dict_get "TAVILY_API_KEY"
    (fst (check_api_keys
            [ ("OPENAI_API_KEY", Some "sk-test");
              ("TAVILY_API_KEY", Some "");
              ("GITHUB_TOKEN", None) ] [] [])) =
    Some (VBool (truthy_env (Some ""))).
Proof.
  apply (check_api_keys_records_each_key
           [ ("OPENAI_API_KEY", Some "sk-test");
             ("TAVILY_API_KEY", Some "");
             ("GITHUB_TOKEN", None) ] [] [] "TAVILY_API_KEY" (Some "")).
  - simpl. repeat constructor; simpl; intuition discriminate.
  - simpl. right. left. reflexivity.
Defined.

(** The instructions the loop over the API keys leaves behind. *)
Lemma check_api_keys_instructions
    (api_keys : list (string * option string)) (configured : dict)
    (instructions : list value) :
  snd (check_api_keys api_keys configured instructions) =
    (instructions ++
     map (fun item => set_key_instruction (fst item))
       (filter (fun item => negb (key_is_set item)) api_keys))%list.
Proof.
  revert configured instructions.
  induction api_keys as [| [key v] rest IH]; intros configured instructions;
    simpl.
  - now rewrite app_nil_r.
  - rewrite IH. unfold key_is_set at 2. simpl.
    destruct (truthy_env v); simpl; [reflexivity |].
    now rewrite <- app_assoc.
Qed.

(** X9.  The loop over the API keys adds one instruction for each key that
    is unset or empty, in the order of the keys, after the instructions
    that were already there, and drops none. *)
Theorem check_api_keys_instructs_for_each_unset_key
    (api_keys : list (string * option string)) (configured : dict)
    (instructions : list value) :
  snd (check_api_keys api_keys configured instructions) =
    (instructions ++
     map (fun item => set_key_instruction (fst item))
       (filter (fun item => negb (key_is_set item)) api_keys))%list.
Proof. apply check_api_keys_instructions. Qed.

(** The loop over the optional dependencies always returns when imports
    fail softly. *)
Lemma check_optional_deps_returns
    {LibState Researcher} (ext : external LibState Researcher)
    deps acc (w : world LibState) :
  imports_fail_softly ext ->
  exists d w', check_optional_deps _ _ ext deps acc w = (Ok d, w').
Proof.
  intros Hsoft. revert acc w.
  induction deps as [| [dep description] deps IH]; intros acc w;
    cbn [check_optional_deps].
  - now exists acc, w.
  - unfold Comp.bind at 1. unfold Comp.try_except, Comp.bind, Comp.ret.
    destruct (import_module ext dep w) as [[[] | e] w1] eqn:Himp.
    + apply IH.
    + rewrite (Hsoft dep w e w1 Himp). apply IH.
Qed.

(** What [validate_research_setup] returns when it returns. *)
Lemma validate_research_setup_returns
    {LibState Researcher} (ext : external LibState Researcher)
    (w w' : world LibState) (d : dict) :
  validate_research_setup ext w = (Ok d, w') ->
  let first := import_module ext "gpt_researcher" w in
  let env := environ (snd first) in
  let checked :=
    check_api_keys
      [ ("OPENAI_API_KEY", environ_get "OPENAI_API_KEY" env);
        ("TAVILY_API_KEY", environ_get "TAVILY_API_KEY" env);
        ("GITHUB_TOKEN", environ_get "GITHUB_TOKEN" env) ] []
      (if returned (fst first) then []
       else [VStr "Install GPT Researcher: pip install gpt-researcher"]) in
  exists required_dependencies,
    d = [ ("success", VBool true);
          ("validation_results",
             VDict
               [ ("gpt_researcher_installed", VBool (returned (fst first)));
                 ("required_dependencies", VDict required_dependencies);
                 ("api_keys_configured", VDict (fst checked));
                 ("setup_instructions", VList (snd checked)) ]);
          ("error", VNone) ].
Proof.
  unfold validate_research_setup, os_getenv. unfold Comp.bind at 1.
  unfold Comp.try_except at 1. unfold Comp.bind at 1. unfold Comp.ret at 1 2.
  intros H. cbv zeta.
  destruct (import_module ext "gpt_researcher" w) as [[[] | e] w1];
    cbn [fst snd returned].
  - unfold Comp.bind, Comp.ret in H.
    destruct (check_optional_deps _ _ ext _ [] w1) as [[deps | e] w2];
      [| discriminate H].
    injection H as <- <-. now exists deps.
  - destruct (isinstance e ImportError); [| discriminate H].
    unfold Comp.bind, Comp.ret in H.
    destruct (check_optional_deps _ _ ext _ [] w1) as [[deps | e'] w2];
      [| discriminate H].
    injection H as <- <-. now exists deps.
Qed.

(** X10.  A missing package is not a failure of [validate_research_setup]:
    as long as the imports it tries fail with [ImportError] only, it
    returns, with [success] true and no error, and says in
    [gpt_researcher_installed] whether the package could be imported. *)
Theorem validate_research_setup_succeeds
    {LibState Researcher} (ext : external LibState Researcher)
    (w : world LibState) :
  imports_fail_softly ext ->
  exists d w' report,
    validate_research_setup ext w = (Ok d, w') /\
    dict_get "success" d = Some (VBool true) /\
    dict_get "error" d = Some VNone /\
    dict_get "validation_results" d = Some (VDict report) /\
    dict_get "gpt_researcher_installed" report =
      Some (VBool (returned (fst (import_module ext "gpt_researcher" w)))).
Proof.
  intros Hsoft.
  assert (Hret : exists d w', validate_research_setup ext w = (Ok d, w')).
  { unfold validate_research_setup, os_getenv. unfold Comp.bind at 1.
    unfold Comp.try_except at 1. unfold Comp.bind at 1. unfold Comp.ret at 1 2.
    destruct (import_module ext "gpt_researcher" w) as [[[] | e] w1] eqn:Himp.
    - unfold Comp.bind, Comp.ret.
      destruct (check_optional_deps_returns ext
                  [ ("phue2", "For smart home integration");
                    ("requests", "For HTTP requests");
                    ("beautifulsoup4", "For web scraping") ] [] w1 Hsoft)
        as (deps & w2 & ->).
      eauto.
    - rewrite (Hsoft _ _ _ _ Himp). unfold Comp.bind, Comp.ret.
      destruct (check_optional_deps_returns ext
                  [ ("phue2", "For smart home integration");
                    ("requests", "For HTTP requests");
                    ("beautifulsoup4", "For web scraping") ] [] w1 Hsoft)
        as (deps & w2 & ->).
      eauto. }
  destruct Hret as (d & w' & Hrun).
  destruct (validate_research_setup_returns ext w w' d Hrun) as (deps & ->).
  do 3 eexists. split; [exact Hrun |]. repeat split; reflexivity.
Qed.

Lemma validate_research_setup_succeeds_witness :
  exists d w' report,
    validate_research_setup ext_missing sample_world = (Ok d, w') /\
    dict_get "success" d = Some (VBool true) /\
    dict_get "error" d = Some VNone /\
    dict_get "validation_results" d = Some (VDict report) /\
    dict_get "gpt_researcher_installed" report =
      Some (VBool (returned (fst (import_module ext_missing "gpt_researcher"
                                    sample_world)))).
Proof.
  apply (validate_research_setup_succeeds ext_missing sample_world).
  intros m w e w' H. vm_compute in H. injection H as <- _. reflexivity.
Defined.

(** X11.  The setup instructions name exactly what is missing: first the
    installation hint if the package cannot be imported, then one line for
    each of the three API keys that is unset or empty, in the order OpenAI,
    Tavily, GitHub; and [api_keys_configured] holds the three flags. *)
Theorem setup_instructions_name_what_is_missing
    {LibState Researcher} (ext : external LibState Researcher)
    (w w' : world LibState) (d : dict) :
  validate_research_setup ext w = (Ok d, w') ->
  let first := import_module ext "gpt_researcher" w in
  let env := environ (snd first) in
  let is_set := fun key => truthy_env (environ_get key env) in
  exists report,
    dict_get "validation_results" d = Some (VDict report) /\
    dict_get "api_keys_configured" report =
      Some (VDict [ ("OPENAI_API_KEY", VBool (is_set "OPENAI_API_KEY"));
                    ("TAVILY_API_KEY", VBool (is_set "TAVILY_API_KEY"));
                    ("GITHUB_TOKEN", VBool (is_set "GITHUB_TOKEN")) ]) /\
    dict_get "setup_instructions" report =
      Some (VList
              ((if returned (fst first) then []
                else [VStr "Install GPT Researcher: pip install gpt-researcher"])
               ++ map set_key_instruction
                    (filter (fun key => negb (is_set key))
                       ["OPENAI_API_KEY"; "TAVILY_API_KEY"; "GITHUB_TOKEN"]))%list).
Proof.
  intros Hrun.
  destruct (validate_research_setup_returns ext w w' d Hrun) as (deps & ->).
  cbv zeta. eexists. split; [reflexivity |]. split.
  - reflexivity.
  - cbn [dict_get String.eqb Ascii.eqb Bool.eqb].
    rewrite check_api_keys_instructions.
    unfold key_is_set. cbn [filter map fst snd].
    destruct (truthy_env (environ_get "OPENAI_API_KEY" _));
      destruct (truthy_env (environ_get "TAVILY_API_KEY" _));
      destruct (truthy_env (environ_get "GITHUB_TOKEN" _)); reflexivity.
Qed.

Lemma setup_instructions_name_what_is_missing_witness :
  exists report,
    dict_get "validation_results"
      (match fst (validate_research_setup ext_working
                    (mk_world [("OPENAI_API_KEY", "sk-test")] tt)) with
       | Ok d => d
       | Raise _ => []
       end) = Some (VDict report) /\
    dict_get "api_keys_configured" report =
      Some (VDict [ ("OPENAI_API_KEY", VBool true);
                    ("TAVILY_API_KEY", VBool false);
                    ("GITHUB_TOKEN", VBool false) ]) /\
    dict_get "setup_instructions" report =
      Some (VList [ set_key_instruction "TAVILY_API_KEY";
                    set_key_instruction "GITHUB_TOKEN" ]).
Proof.
  apply (setup_instructions_name_what_is_missing ext_working
           (mk_world [("OPENAI_API_KEY", "sk-test")] tt)
           (mk_world [("OPENAI_API_KEY", "sk-test")] tt)).
  reflexivity.
Defined.

(** * Properties of the prompts *)

Lemma append_assoc (a b c : string) : (a ++ b) ++ c = a ++ (b ++ c).
Proof. induction a as [| x a IH]; simpl; [reflexivity | now rewrite IH]. Qed.

Lemma length_append (a b : string) :
  String.length (a ++ b) = String.length a + String.length b.
Proof. induction a as [| x a IH]; simpl; [reflexivity | now rewrite IH]. Qed.

Lemma append_inv_tail (a b s : string) : a ++ s = b ++ s -> a = b.
Proof.
  revert b. induction a as [| x a IH]; intros [| y b] H; simpl in H.
  - reflexivity.
  - apply (f_equal String.length) in H. simpl in H.
    rewrite length_append in H. lia.
  - apply (f_equal String.length) in H. simpl in H.
    rewrite length_append in H. lia.
  - injection H as -> H. f_equal. now apply IH.
Qed.

(** X12.  The outline prompt determines its topic: two topics that render
    to the same prompt are the same topic. *)
Theorem research_outline_prompt_injective (topic1 topic2 : string) :
  research_outline_prompt topic1 = research_outline_prompt topic2 ->
  topic1 = topic2.
Proof.
  unfold research_outline_prompt, text, dquote, nl. intros H.
  cbn in H.
  repeat match type of H with
         | String _ _ = String _ _ => injection H as H
         end.
  apply append_inv_tail in H. now apply append_inv_tail in H.
Qed.

Lemma research_outline_prompt_injective_witness :
  "Machine Learning in Healthcare" = "Machine Learning in Healthcare".
Proof.
  apply (research_outline_prompt_injective "Machine Learning in Healthcare"
           "Machine Learning in Healthcare").
  reflexivity.
Defined.

(** X13.  The analysis prompt does not delimit its arguments: findings that
    repeat the "Research Findings:" header render to the same prompt as a
    query that ends with that header and the first part of the findings. *)
Theorem research_analysis_prompt_boundary_is_lost (a b c : string) :
  research_analysis_prompt a (b ++ findings_header ++ c) =
  research_analysis_prompt (a ++ findings_header ++ b) c.
Proof.
  unfold research_analysis_prompt, text, findings_header, nl.
  cbn. do 17 f_equal.
  rewrite !append_assoc. cbn. reflexivity.
Qed.

(** * Properties of the test suite *)

(** The six entries of a result of a research tool. *)
Lemma research_result_shape
    {LibState Researcher} (ext : external LibState Researcher)
    (c : tool_call) (q : string) (w w' : world LibState) (d : dict) :
  query_of c = Some q ->
  run_tool ext c w = (Ok d, w') ->
  exists success report citations metadata error,
    d = [ ("success", success); ("query", VStr q); ("report", report);
          ("citations", citations); ("metadata", metadata);
          ("error", error) ].
Proof.
  assert (Hconduct : forall q rt rs mi dp r mc,
    conduct_research ext q rt rs mi dp r mc w = (Ok d, w') ->
    exists success report citations metadata error,
      d = [ ("success", success); ("query", VStr q); ("report", report);
            ("citations", citations); ("metadata", metadata);
            ("error", error) ]).
  { clear q. intros q rt rs mi dp r mc H.
    rewrite conduct_research_outcome in H.
    destruct (conduct_research_try _ _ _ _ _ _ _ _ w) as [[d0 | e] w1] eqn:Hb.
    - injection H as <- <-.
      apply conduct_research_try_returns in Hb
        as (report & citations & ts & steps & total & ->).
      eauto 10.
    - destruct (isinstance e ImportError);
        [| destruct (isinstance e Exception)]; try discriminate H;
        injection H as <- <-; eauto 10. }
  intros Hq H. destruct c; simpl in H, Hq; try discriminate Hq;
    injection Hq as <-.
  - eapply Hconduct; eassumption.
  - eapply Hconduct; eassumption.
  - rewrite deep_research_outcome in H.
    destruct (deep_research_try _ _ _ _ _ w) as [[d0 | e] w1] eqn:Hb.
    + injection H as <- <-.
      apply deep_research_try_returns in Hb
        as (report & citations & ts & tree & total & sub & ->).
      eauto 10.
    + destruct (isinstance e ImportError);
        [| destruct (isinstance e Exception)]; try discriminate H;
        injection H as <- <-; eauto 10.
  - eapply Hconduct; eassumption.
Qed.

(** [get_research_capabilities] by the outcome of its import. *)
Lemma capabilities_shape
    {LibState Researcher} (ext : external LibState Researcher)
    (w : world LibState) :
  get_research_capabilities ext w =
    match import_from ext "gpt_researcher" "GPTResearcher" w with
    | (Ok _, w') =>
        (Ok [ ("success", VBool true);
              ("capabilities", VDict capabilities);
              ("error", VNone) ], w')
    | (Raise e, w') =>
        if isinstance e ImportError
        then (Ok [ ("success", VBool false);
                   ("capabilities", VDict []);
                   ("error", VStr "GPT Researcher not installed. Install with: pip install gpt-researcher") ],
              w')
        else (Raise e, w')
    end.
Proof.
  unfold get_research_capabilities. unfold_comp.
  destruct (import_from ext "gpt_researcher" "GPTResearcher" w)
    as [[[] | e] w']; [reflexivity |].
  destruct (isinstance e ImportError); reflexivity.
Qed.

(** X14.  No assertion of the test suite can fail: each test passes
    whenever the tool it calls returns, whatever the package does, and a
    test ends in an exception only if the tool itself let that exception
    out. *)
Theorem tests_pass_when_the_tool_returns
    {LibState Researcher} (ext : external LibState Researcher)
    (test : Comp.M (world LibState) unit) (c : tool_call)
    (w : world LibState) :
  In (test, c) (test_suite ext) ->
  test w = passes_if_returned (run_tool ext c w).
Proof.
  unfold passes_if_returned.
  intros Hin. simpl in Hin.
  repeat (destruct Hin as [[= <- <-] | Hin]); [.. | destruct Hin].
  - unfold test_get_research_capabilities. cbn [run_tool].
    unfold Comp.bind at 1.
    rewrite capabilities_shape.
    destruct (import_from ext "gpt_researcher" "GPTResearcher" w)
      as [[[] | e] w1]; [reflexivity |].
    destruct (isinstance e ImportError); reflexivity.
  - unfold test_validate_research_setup. cbn [run_tool].
    unfold Comp.bind at 1.
    destruct (validate_research_setup ext w) as [[d | e] w1] eqn:Hrun;
      [| reflexivity].
    destruct (validate_research_setup_returns ext w w1 d Hrun) as (deps & ->).
    reflexivity.
  - unfold test_conduct_research_basic, conduct_research_fn, or_default.
    cbn [run_tool kw_query kw_report_type kw_report_source kw_max_iterations
         kw_doc_path kw_retriever kw_mcp_configs].
    unfold Comp.bind at 1.
    destruct (conduct_research _ _ _ _ _ _ _ _ w) as [[d | e] w1] eqn:Hrun;
      [| reflexivity].
    destruct (research_result_shape ext
                (call_conduct_research "What is artificial intelligence?"
                   "research_report" "web" 1 None "tavily" None)
                _ w w1 d eq_refl Hrun) as (s & rep & cit & md & err & ->).
    reflexivity.
  - unfold test_research_local_documents. cbn [run_tool].
    unfold Comp.bind at 1.
    destruct (research_local_documents _ _ _ _ w) as [[d | e] w1] eqn:Hrun;
      [| reflexivity].
    destruct (research_result_shape ext
                (call_research_local_documents "Test query"
                   "/nonexistent/path" "research_report")
                _ w w1 d eq_refl Hrun) as (s & rep & cit & md & err & ->).
    reflexivity.
  - unfold test_deep_research. cbn [run_tool].
    unfold Comp.bind at 1.
    destruct (deep_research _ _ _ _ _ w) as [[d | e] w1] eqn:Hrun;
      [| reflexivity].
    destruct (research_result_shape ext
                (call_deep_research "Test deep research query" 2 3 2)
                _ w w1 d eq_refl Hrun) as (s & rep & cit & md & err & ->).
    reflexivity.
  - unfold test_hybrid_research_with_mcp. cbn [run_tool].
    unfold Comp.bind at 1.
    destruct (hybrid_research_with_mcp _ _ _ _ w) as [[d | e] w1] eqn:Hrun;
      [| reflexivity].
    destruct (research_result_shape ext
                (call_hybrid_research_with_mcp "Test hybrid research"
                   test_mcp_configs "research_report")
                _ w w1 d eq_refl Hrun) as (s & rep & cit & md & err & ->).
    reflexivity.
  - unfold test_research_config_validation, conduct_research_fn, or_default.
    cbn [run_tool kw_query kw_report_type kw_report_source kw_max_iterations
         kw_doc_path kw_retriever kw_mcp_configs].
    unfold Comp.bind at 1.
    destruct (conduct_research _ _ _ _ _ _ _ _ w) as [[d | e] w1] eqn:Hrun;
      [| reflexivity].
    destruct (research_result_shape ext
                (call_conduct_research "Test query" "research_report" "web"
                   15 None "tavily" None)
                _ w w1 d eq_refl Hrun) as (s & rep & cit & md & err & ->).
    reflexivity.
Qed.

Lemma tests_pass_when_the_tool_returns_witness :
  test_deep_research unit unit ext_missing sample_world =
  passes_if_returned
    (run_tool ext_missing (call_deep_research "Test deep research query" 2 3 2)
       sample_world).
Proof.
  apply (tests_pass_when_the_tool_returns ext_missing
           (test_deep_research unit unit ext_missing)
           (call_deep_research "Test deep research query" 2 3 2) sample_world).
  simpl. do 4 right. left. reflexivity.
Defined.

(** * Properties of the todo tools *)

Lemma length_replace_nth (l : list value) (i : nat) (v : value) :
  List.length (Assistant.replace_nth l i v) = List.length l.
Proof.
  revert i. induction l as [| x l IH]; intros [| i]; simpl; auto.
Qed.

Lemma nth_error_replace_nth_same (l : list value) (i : nat) (v : value) :
  (i < List.length l)%nat ->
  nth_error (Assistant.replace_nth l i v) i = Some v.
Proof.
  revert i. induction l as [| x l IH]; intros [| i] Hi; simpl in *;
    try lia; [reflexivity |].
  apply IH. lia.
Qed.

Lemma nth_error_replace_nth_other (l : list value) (i j : nat) (v : value) :
  j <> i ->
  nth_error (Assistant.replace_nth l i v) j = nth_error l j.
Proof.
  revert i j. induction l as [| x l IH]; intros [| i] [| j] Hne; simpl;
    try reflexivity; try contradiction.
  apply IH. congruence.
Qed.

Lemma replace_nth_twice (l : list value) (i : nat) (v v' : value) :
  Assistant.replace_nth (Assistant.replace_nth l i v) i v' =
  Assistant.replace_nth l i v'.
Proof.
  revert i. induction l as [| x l IH]; intros [| i]; simpl;
    try reflexivity. now rewrite IH.
Qed.

Lemma replace_nth_last (l : list value) (x v : value) :
  Assistant.replace_nth (l ++ [x]) (List.length l) v = (l ++ [v])%list.
Proof. induction l as [| y l IH]; simpl; [reflexivity | now rewrite IH]. Qed.

Lemma forallb_replace_nth (p : value -> bool) (l : list value) (i : nat)
    (v : value) :
  forallb p l = true -> p v = true ->
  forallb p (Assistant.replace_nth l i v) = true.
Proof.
  revert i. induction l as [| x l IH]; intros [| i] Hl Hv; simpl in *;
    try reflexivity.
  - apply andb_true_iff in Hl as [_ Hl]. now rewrite Hv.
  - apply andb_true_iff in Hl as [Hx Hl]. rewrite Hx. now apply IH.
Qed.

Lemma dict_set_twice (k : string) (v v' : value) (d : dict) :
  dict_set k v (dict_set k v' d) = dict_set k v d.
Proof.
  induction d as [| [k0 v0] d IH]; simpl.
  - now rewrite String.eqb_refl.
  - destruct (String.eqb k k0) eqn:Hk; simpl.
    + now rewrite String.eqb_refl.
    + now rewrite Hk, IH.
Qed.

Lemma in_range_nth_error (l : list value) (n : Z) :
  (1 <= n <= Z.of_nat (List.length l))%Z ->
  exists v, nth_error l (Z.to_nat (n - 1)) = Some v.
Proof.
  intros Hn.
  destruct (nth_error l (Z.to_nat (n - 1))) as [v |] eqn:Hv; [eauto |].
  apply nth_error_None in Hv. lia.
Qed.

Lemma store_eta {Clock} (s : Assistant.store Clock) :
  Assistant.mk_store (Assistant.todos_json s) (Assistant.clock s) = s.
Proof. now destruct s. Qed.

Section AssistantProperties.

Variable Clock : Type.
Variable now_isoformat : Clock -> string * Clock.
Variable fmt : value -> string.

Abbreviation create_todo := (Assistant.create_todo Clock now_isoformat).
Abbreviation complete_todo := (Assistant.complete_todo Clock fmt).
Abbreviation list_todos := (Assistant.list_todos Clock fmt).
Abbreviation serve := (Assistant.serve Clock now_isoformat fmt).

(** The loop of [list_todos] gets through a list of todos. *)
Lemma list_lines_returns (l : list value) (i : Z) (acc : string) :
  forallb Assistant.is_todo l = true ->
  exists out, Assistant.list_lines fmt l i acc = Ok out.
Proof.
  revert i acc. induction l as [| todo l IH]; intros i acc Hl; simpl.
  - eauto.
  - simpl in Hl. apply andb_true_iff in Hl as [Htodo Hl].
    destruct todo as [| | | | | d]; try discriminate Htodo.
    unfold Assistant.is_todo in Htodo. unfold Assistant.item_get.
    destruct (dict_get "task" d) as [[| | | task | |] |]; try discriminate Htodo.
    destruct (dict_get "priority" d) as [[| | | priority | |] |];
      try discriminate Htodo.
    destruct (dict_get "completed" d) as [[| flag | | | |] |];
      try discriminate Htodo.
    now apply IH.
Qed.

(** What [complete_todo] does to a list on file when the number is in
    range and names a dictionary. *)
Lemma complete_todo_in_range (s : Assistant.store Clock) (l : list value)
    (n : Z) (d : dict) :
  Assistant.todos_json s = Some (Assistant.Json (VList l)) ->
  (1 <= n <= Z.of_nat (List.length l))%Z ->
  nth_error l (Z.to_nat (n - 1)) = Some (VDict d) ->
  complete_todo n s =
    (match dict_get "task" d with
     | Some task => Ok ("Completed todo: '" ++ fmt task ++ "'")
     | None => Raise (mk_exn Exception "'task'")
     end,
     Assistant.mk_store
       (Some (Assistant.Json
                (VList (Assistant.replace_nth l (Z.to_nat (n - 1))
                          (VDict (dict_set "completed" (VBool true) d))))))
       (Assistant.clock s)).
Proof.
  intros Hfile Hn Hnth.
  unfold Assistant.complete_todo, Assistant.path_exists, Assistant.json_load,
    Assistant.json_dump.
  assert (Hlt : (n <? 1)%Z = false) by (apply Z.ltb_ge; lia).
  assert (Hgt : (n >? Z.of_nat (List.length l))%Z = false)
    by (rewrite Z.gtb_ltb; apply Z.ltb_ge; lia).
  unfold_comp. rewrite Hfile. cbn [negb]. rewrite Hfile, Hlt.
  cbn [py_len]. rewrite Hgt.
  cbn [Assistant.index]. rewrite Hnth.
  cbn [Assistant.item_set Assistant.with_item Assistant.index
       Assistant.clock Assistant.todos_json].
  rewrite nth_error_replace_nth_same by (apply nth_error_Some; congruence).
  cbn [Assistant.item_get].
  rewrite dict_get_set_other by discriminate.
  destruct (dict_get "task" d); reflexivity.
Qed.

(** What [complete_todo] answers for a list on file when the number is out
    of range. *)
Lemma complete_todo_out_of_range (s : Assistant.store Clock) (l : list value)
    (n : Z) :
  Assistant.todos_json s = Some (Assistant.Json (VList l)) ->
  (n < 1 \/ Z.of_nat (List.length l) < n)%Z ->
  complete_todo n s =
    (Ok ("Invalid todo number. Please choose 1-"
           ++ fmt (VInt (Z.of_nat (List.length l)))), s).
Proof.
  intros Hfile Hn.
  unfold Assistant.complete_todo, Assistant.path_exists, Assistant.json_load.
  unfold_comp. rewrite Hfile. cbn [negb]. rewrite Hfile.
  destruct (n <? 1)%Z eqn:Hlt; cbn [py_len]; [reflexivity |].
  apply Z.ltb_ge in Hlt.
  assert (Hgt : (n >? Z.of_nat (List.length l))%Z = true)
    by (rewrite Z.gtb_ltb; apply Z.ltb_lt; lia).
  now rewrite Hgt.
Qed.

(** X15.  The three todo tools keep [todos.json] in shape: on a file that
    is absent or holds a list of todos (dictionaries with a string task, a
    string priority and a boolean completed flag), every request is
    answered without an exception and leaves such a file behind. *)
Theorem todo_tools_keep_the_file_in_shape
    (r : Assistant.request) (s : Assistant.store Clock) :
  Assistant.todos_file_ok s = true ->
  exists reply s',
    serve r s = (Ok reply, s') /\ Assistant.todos_file_ok s' = true.
Proof.
  intros Hok. unfold Assistant.todos_file_ok in Hok.
  destruct r as [task priority | n |]; cbn [Assistant.serve].
  - unfold Assistant.create_todo, Assistant.now, Assistant.path_exists,
      Assistant.json_load, Assistant.json_dump.
    unfold_comp. destruct (now_isoformat (Assistant.clock s)) as [t c].
    cbn [Assistant.todos_json Assistant.clock].
    destruct (Assistant.todos_json s) as [[| [| | | | l |]] |];
      try discriminate Hok.
    + do 2 eexists. split; [reflexivity |].
      unfold Assistant.todos_file_ok. cbn [Assistant.todos_json].
      rewrite forallb_app, Hok. reflexivity.
    + do 2 eexists. split; reflexivity.
  - destruct (Assistant.todos_json s) as [[| [| | | | l |]] |] eqn:Hfile;
      try discriminate Hok.
    + destruct (Z_lt_dec n 1) as [Hlo | Hlo];
        [| destruct (Z_lt_dec (Z.of_nat (List.length l)) n) as [Hhi | Hhi]].
      * rewrite (complete_todo_out_of_range s l n Hfile) by lia.
        do 2 eexists. split; [reflexivity |].
        unfold Assistant.todos_file_ok. now rewrite Hfile.
      * rewrite (complete_todo_out_of_range s l n Hfile) by lia.
        do 2 eexists. split; [reflexivity |].
        unfold Assistant.todos_file_ok. now rewrite Hfile.
      * destruct (in_range_nth_error l n) as [todo Hnth]; [lia |].
        assert (Htodo : Assistant.is_todo todo = true).
        { rewrite forallb_forall in Hok. apply Hok.
          eapply nth_error_In; eassumption. }
        destruct todo as [| | | | | d]; try discriminate Htodo.
        rewrite (complete_todo_in_range s l n d Hfile) by (lia || assumption).
        unfold Assistant.is_todo in Htodo.
        destruct (dict_get "task" d) as [[| | | task | |] |] eqn:Htask;
          try discriminate Htodo.
        destruct (dict_get "priority" d) as [[| | | priority | |] |] eqn:Hprio;
          try discriminate Htodo.
        destruct (dict_get "completed" d) as [[| flag | | | |] |] eqn:Hdone;
          try discriminate Htodo.
        do 2 eexists. split; [reflexivity |].
        unfold Assistant.todos_file_ok. cbn [Assistant.todos_json].
        apply forallb_replace_nth; [assumption |].
        unfold Assistant.is_todo.
        rewrite !dict_get_set_other by discriminate.
        rewrite dict_get_set_same, Htask, Hprio. reflexivity.
    + unfold Assistant.complete_todo, Assistant.path_exists. unfold_comp.
      rewrite Hfile. do 2 eexists. split; [reflexivity |].
      unfold Assistant.todos_file_ok. now rewrite Hfile.
  - unfold Assistant.list_todos, Assistant.path_exists, Assistant.json_load.
    unfold_comp.
    destruct (Assistant.todos_json s) as [[| [| | | | l |]] |] eqn:Hfile;
      try discriminate Hok; cbn [negb].
    + rewrite Hfile.
      destruct l as [| todo l]; cbn [truthy negb Assistant.iterate].
      * do 2 eexists. split; [reflexivity |].
        unfold Assistant.todos_file_ok. now rewrite Hfile.
      * destruct (list_lines_returns (todo :: l) 1 ("Current todos:" ++ nl) Hok)
          as [out ->].
        do 2 eexists. split; [reflexivity |].
        unfold Assistant.todos_file_ok. now rewrite Hfile.
    + do 2 eexists. split; [reflexivity |].
      unfold Assistant.todos_file_ok. now rewrite Hfile.
Qed.

(** X16.  [complete_todo] with a number in range marks that todo and no
    other: the file keeps its length, the todo at that position is the old
    one with [completed] set to [True], every other todo is as it was, and
    the answer names the task. *)
Theorem complete_todo_marks_exactly_one
    (s : Assistant.store Clock) (l : list value) (n : Z) (d : dict)
    (task : value) :
  Assistant.todos_json s = Some (Assistant.Json (VList l)) ->
  (1 <= n <= Z.of_nat (List.length l))%Z ->
  nth_error l (Z.to_nat (n - 1)) = Some (VDict d) ->
  dict_get "task" d = Some task ->
  exists l',
    complete_todo n s =
      (Ok ("Completed todo: '" ++ fmt task ++ "'"),
       Assistant.mk_store (Some (Assistant.Json (VList l'))) (Assistant.clock s)) /\
    List.length l' = List.length l /\
    nth_error l' (Z.to_nat (n - 1)) =
      Some (VDict (dict_set "completed" (VBool true) d)) /\
    (forall j, j <> Z.to_nat (n - 1) -> nth_error l' j = nth_error l j).
Proof.
  intros Hfile Hn Hnth Htask.
  eexists. split; [| split; [| split]].
  - rewrite (complete_todo_in_range s l n d Hfile Hn Hnth), Htask. reflexivity.
  - apply length_replace_nth.
  - apply nth_error_replace_nth_same. apply nth_error_Some. congruence.
  - intros j Hj. now apply nth_error_replace_nth_other.
Qed.

(** X17.  [complete_todo] accepts the numbers 1 to [len(todos)] and no
    others: for a number below 1 or above the length it answers with the
    valid range and leaves the file and everything else untouched. *)
Theorem complete_todo_rejects_out_of_range
    (s : Assistant.store Clock) (l : list value) (n : Z) :
  Assistant.todos_json s = Some (Assistant.Json (VList l)) ->
  (n < 1 \/ Z.of_nat (List.length l) < n)%Z ->
  complete_todo n s =
    (Ok ("Invalid todo number. Please choose 1-"
           ++ fmt (VInt (Z.of_nat (List.length l)))), s).
Proof. apply complete_todo_out_of_range. Qed.

(** X18.  [complete_todo] writes the file before it looks up the task: for
    a todo in range that has no ["task"] entry the call ends in a
    [KeyError], and the todo has been marked completed on file all the
    same. *)
Theorem complete_todo_writes_before_it_fails
    (s : Assistant.store Clock) (l : list value) (n : Z) (d : dict) :
  Assistant.todos_json s = Some (Assistant.Json (VList l)) ->
  (1 <= n <= Z.of_nat (List.length l))%Z ->
  nth_error l (Z.to_nat (n - 1)) = Some (VDict d) ->
  dict_get "task" d = None ->
  exists e l',
    complete_todo n s =
      (Raise e,
       Assistant.mk_store (Some (Assistant.Json (VList l'))) (Assistant.clock s)) /\
    nth_error l' (Z.to_nat (n - 1)) =
      Some (VDict (dict_set "completed" (VBool true) d)).
Proof.
  intros Hfile Hn Hnth Htask.
  do 2 eexists. split.
  - rewrite (complete_todo_in_range s l n d Hfile Hn Hnth), Htask. reflexivity.
  - apply nth_error_replace_nth_same. apply nth_error_Some. congruence.
Qed.

(** X19.  A todo that [create_todo] has just written is the last one of
    the list, not completed, and [complete_todo] with the new length
    completes it and nothing else. *)
Theorem created_todo_can_be_completed
    (s : Assistant.store Clock) (l : list value) (task priority : string) :
  Assistant.current_todos s = Some l ->
  let created := fst (now_isoformat (Assistant.clock s)) in
  let later := snd (now_isoformat (Assistant.clock s)) in
  let todo flag :=
    VDict [ ("task", VStr task); ("priority", VStr priority);
            ("created", VStr created); ("completed", VBool flag) ] in
  create_todo task priority s =
    (Ok ("Created todo: '" ++ task ++ "' with priority '" ++ priority ++ "'"),
     Assistant.mk_store
       (Some (Assistant.Json (VList (l ++ [todo false])%list))) later) /\
  complete_todo (Z.of_nat (List.length l) + 1)
    (snd (create_todo task priority s)) =
    (Ok ("Completed todo: '" ++ fmt (VStr task) ++ "'"),
     Assistant.mk_store
       (Some (Assistant.Json (VList (l ++ [todo true])%list))) later).
Proof.
  intros Hcur. cbv zeta.
  assert (Hcreate :
    create_todo task priority s =
      (Ok ("Created todo: '" ++ task ++ "' with priority '" ++ priority ++ "'"),
       Assistant.mk_store
         (Some (Assistant.Json
                  (VList (l ++ [VDict [ ("task", VStr task);
                                        ("priority", VStr priority);
                                        ("created",
                                           VStr (fst (now_isoformat (Assistant.clock s))));
                                        ("completed", VBool false) ]])%list)))
         (snd (now_isoformat (Assistant.clock s))))).
  { unfold Assistant.create_todo, Assistant.now, Assistant.path_exists,
      Assistant.json_load, Assistant.json_dump.
    unfold_comp. destruct (now_isoformat (Assistant.clock s)) as [t c].
    cbn [Assistant.todos_json Assistant.clock fst snd].
    unfold Assistant.current_todos in Hcur.
    destruct (Assistant.todos_json s) as [[| [| | | | l0 |]] |];
      try discriminate Hcur; injection Hcur as <-; reflexivity. }
  split; [exact Hcreate |].
  rewrite Hcreate. cbn [snd].
  set (d0 := [ ("task", VStr task); ("priority", VStr priority);
               ("created", VStr (fst (now_isoformat (Assistant.clock s))));
               ("completed", VBool false) ]).
  assert (Hlast : Z.to_nat (Z.of_nat (List.length l) + 1 - 1) = List.length l)
    by lia.
  rewrite (complete_todo_in_range _ (l ++ [VDict d0])%list _ d0).
  - rewrite Hlast, replace_nth_last. reflexivity.
  - reflexivity.
  - rewrite length_app. simpl. lia.
  - rewrite Hlast, nth_error_app2 by lia. now rewrite Nat.sub_diag.
Qed.

(** X20.  Completing a todo twice is completing it once: whatever the file
    holds and however the calls end, a second [complete_todo] with the same
    number leaves everything as the first call left it. *)
Theorem complete_todo_idempotent (s : Assistant.store Clock) (n : Z) :
  snd (complete_todo n (snd (complete_todo n s))) = snd (complete_todo n s).
Proof.
  assert (Hkeep : forall s0,
    snd (complete_todo n s0) = s0 ->
    snd (complete_todo n (snd (complete_todo n s0))) = snd (complete_todo n s0)).
  { intros s0 H. now rewrite !H. }
  destruct (Assistant.todos_json s) as [[| v] |] eqn:Hfile.
  - apply Hkeep. unfold Assistant.complete_todo, Assistant.path_exists,
      Assistant.json_load. unfold_comp. now rewrite Hfile; cbn; rewrite Hfile.
  - destruct v as [| b | z | str | l | dd].
    1-4, 6: apply Hkeep;
      unfold Assistant.complete_todo, Assistant.path_exists,
        Assistant.json_load, Assistant.json_dump; unfold_comp;
      rewrite Hfile; cbn [negb]; rewrite Hfile;
      destruct (n <? 1)%Z; cbn [py_len type_name];
      try reflexivity;
      try (destruct (n >? _)%Z; cbn [Assistant.index]; try reflexivity;
           destruct (String.get _ _); reflexivity).
    destruct (Z_lt_dec n 1) as [Hlo | Hlo];
      [| destruct (Z_lt_dec (Z.of_nat (List.length l)) n) as [Hhi | Hhi]].
    + apply Hkeep. now rewrite (complete_todo_out_of_range s l n Hfile) by lia.
    + apply Hkeep. now rewrite (complete_todo_out_of_range s l n Hfile) by lia.
    + destruct (in_range_nth_error l n) as [todo Hnth]; [lia |].
      destruct todo as [| b | z | str | l0 | d].
      1-5: apply Hkeep;
        unfold Assistant.complete_todo, Assistant.path_exists,
          Assistant.json_load, Assistant.json_dump; unfold_comp;
        rewrite Hfile; cbn [negb]; rewrite Hfile;
        (replace (n <? 1)%Z with false by (symmetry; apply Z.ltb_ge; lia));
        cbn [py_len];
        (replace (n >? Z.of_nat (List.length l))%Z with false
           by (symmetry; rewrite Z.gtb_ltb; apply Z.ltb_ge; lia));
        cbn [Assistant.index]; rewrite Hnth; reflexivity.
      rewrite (complete_todo_in_range s l n d Hfile) by (lia || assumption).
      cbn [snd].
      erewrite complete_todo_in_range.
      * cbn [snd Assistant.clock].
        now rewrite replace_nth_twice, dict_set_twice.
      * reflexivity.
      * rewrite length_replace_nth. lia.
      * apply nth_error_replace_nth_same. apply nth_error_Some. congruence.
  - apply Hkeep. unfold Assistant.complete_todo, Assistant.path_exists.
    unfold_comp. now rewrite Hfile.
Qed.

End AssistantProperties.

Lemma todo_tools_keep_the_file_in_shape_witness :
  exists reply s',
    Assistant.serve nat sample_clock sample_fmt
      (Assistant.Create "buy milk" "medium") (Assistant.mk_store None 0)
    = (Ok reply, s') /\
    Assistant.todos_file_ok s' = true.
Proof.
  apply (todo_tools_keep_the_file_in_shape nat sample_clock sample_fmt
           (Assistant.Create "buy milk" "medium") (Assistant.mk_store None 0)).
  reflexivity.
Defined.

Lemma complete_todo_marks_exactly_one_witness :
  exists l',
    Assistant.complete_todo nat sample_fmt 1 sample_store =
      (Ok ("Completed todo: '" ++ sample_fmt (VStr "write report") ++ "'"),
       Assistant.mk_store (Some (Assistant.Json (VList l'))) 0) /\
    List.length l' = List.length sample_todos /\
    nth_error l' (Z.to_nat (1 - 1)) =
      Some (VDict (dict_set "completed" (VBool true)
                     [ ("task", VStr "write report"); ("priority", VStr "high");
                       ("created", VStr "2024-01-01T00:00:00");
                       ("completed", VBool false) ])) /\
    (forall j, j <> Z.to_nat (1 - 1) ->
               nth_error l' j = nth_error sample_todos j).
Proof.
  apply (complete_todo_marks_exactly_one nat sample_fmt sample_store
           sample_todos 1
           [ ("task", VStr "write report"); ("priority", VStr "high");
             ("created", VStr "2024-01-01T00:00:00");
             ("completed", VBool false) ]
           (VStr "write report")).
  - reflexivity.
  - simpl. lia.
  - reflexivity.
  - reflexivity.
Defined.

Lemma complete_todo_rejects_out_of_range_witness :
  Assistant.complete_todo nat sample_fmt 3 sample_store =
    (Ok ("Invalid todo number. Please choose 1-"
           ++ sample_fmt (VInt (Z.of_nat (List.length sample_todos)))),
     sample_store).
Proof.
  apply (complete_todo_rejects_out_of_range nat sample_fmt sample_store
           sample_todos 3).
  - reflexivity.
  - right. simpl. lia.
Defined.

Lemma complete_todo_writes_before_it_fails_witness :
  exists e l',
    Assistant.complete_todo nat sample_fmt 2 sample_store =
      (Raise e, Assistant.mk_store (Some (Assistant.Json (VList l'))) 0) /\
    nth_error l' (Z.to_nat (2 - 1)) =
      Some (VDict (dict_set "completed" (VBool true)
                     [ ("priority", VStr "low"); ("completed", VBool false) ])).
Proof.
  apply (complete_todo_writes_before_it_fails nat sample_fmt sample_store
           sample_todos 2
           [ ("priority", VStr "low"); ("completed", VBool false) ]).
  - reflexivity.
  - simpl. lia.
  - reflexivity.
  - reflexivity.
Defined.

Lemma created_todo_can_be_completed_witness :
  Assistant.create_todo nat sample_clock "buy milk" "medium" sample_store =
    (Ok "Created todo: 'buy milk' with priority 'medium'",
     Assistant.mk_store
       (Some (Assistant.Json
                (VList (sample_todos ++
                        [ VDict [ ("task", VStr "buy milk");
                                  ("priority", VStr "medium");
                                  ("created", VStr "2024-01-01T00:00:00");
                                  ("completed", VBool false) ] ])%list))) 1) /\
  Assistant.complete_todo nat sample_fmt 3
    (snd (Assistant.create_todo nat sample_clock "buy milk" "medium" sample_store)) =
    (Ok "Completed todo: 'buy milk'",
     Assistant.mk_store
       (Some (Assistant.Json
                (VList (sample_todos ++
                        [ VDict [ ("task", VStr "buy milk");
                                  ("priority", VStr "medium");
                                  ("created", VStr "2024-01-01T00:00:00");
                                  ("completed", VBool true) ] ])%list))) 1).
Proof.
  apply (created_todo_can_be_completed nat sample_clock sample_fmt
           sample_store sample_todos "buy milk" "medium").
  reflexivity.
Defined.

(** * Properties of validate_migration_safety *)

Lemma prefix_spec (p s : string) :
  String.prefix p s = true <-> exists post, s = p ++ post.
Proof.
  revert p. induction s as [| c' s IH]; intros [| c p]; simpl.
  - split; [intros _; now exists "" | reflexivity].
  - split; [discriminate | intros [post H]; discriminate H].
  - split; [intros _; now exists (String c' s) | reflexivity].
  - destruct (ascii_dec c c') as [<- | Hne].
    + rewrite IH. split; intros [post H]; exists post.
      * now rewrite H.
      * now injection H.
    + split; [discriminate | intros [post H]].
      injection H as H _. now subst.
Qed.

(** [needle in haystack] holds exactly when the haystack splits around the
    needle. *)
Lemma is_substring_spec (needle haystack : string) :
  is_substring needle haystack = true <->
  exists pre post, haystack = pre ++ needle ++ post.
Proof.
  induction haystack as [| c rest IH]; cbn [is_substring].
  - rewrite orb_false_r, prefix_spec. split.
    + intros [post H]. now exists "", post.
    + intros (pre & post & H). destruct pre; [now exists post | discriminate H].
  - rewrite orb_true_iff, prefix_spec, IH. split.
    + intros [[post H] | (pre & post & H)].
      * now exists "", post.
      * exists (String c pre), post. simpl. now rewrite H.
    + intros (pre & post & H). destruct pre as [| c' pre].
      * left. now exists post.
      * right. injection H as _ H. now exists pre, post.
Qed.

Lemma has_space_append (a b : string) :
  Supabase.has_space (a ++ b) = Supabase.has_space a || Supabase.has_space b.
Proof.
  induction a as [| c a IH]; simpl; [reflexivity |].
  now rewrite IH, orb_assoc.
Qed.

Lemma upper_char_space (c : ascii) :
  Ascii.eqb (Supabase.upper_char c) " " = Ascii.eqb c " ".
Proof.
  destruct c as [[] [] [] [] [] [] [] []]; reflexivity.
Qed.

Lemma has_space_upper (s : string) :
  Supabase.has_space (Supabase.upper s) = Supabase.has_space s.
Proof.
  induction s as [| c s IH]; simpl; [reflexivity |].
  now rewrite upper_char_space, IH.
Qed.

Section MigrationProperties.

Variable Clock : Type.
Variable now_isoformat : Clock -> string * Clock.

Abbreviation validate_migration_safety :=
  (Supabase.validate_migration_safety Clock now_isoformat).

(** The result of [validate_migration_safety] by the two searches. *)
Lemma validate_migration_safety_result (migration_file project_id : string)
    (c : Clock) :
  validate_migration_safety migration_file project_id c =
    (Ok [ ("migration_file", VStr migration_file);
          ("project_id", VStr project_id);
          ("validated_at", VStr (fst (now_isoformat c)));
          ("status",
             VStr (if is_substring "DROP TABLE" (Supabase.upper migration_file)
                   then "WARNING" else "SAFE"));
          ("warnings",
             VList (if is_substring "DROP TABLE" (Supabase.upper migration_file)
                    then [VStr "Migration contains DROP TABLE - ensure this is intentional"]
                    else []));
          ("recommendations",
             VList (if is_substring "ALTER TABLE" (Supabase.upper migration_file)
                    then [VStr "Consider adding rollback SQL for ALTER TABLE operations"]
                    else [])) ],
     snd (now_isoformat c)).
Proof.
  unfold Supabase.validate_migration_safety,
    Supabase.validate_migration_safety_try, Supabase.now.
  unfold_comp. destruct (now_isoformat c) as [t c'].
  destruct (is_substring "DROP TABLE" _); destruct (is_substring "ALTER TABLE" _);
    reflexivity.
Qed.

(** X21.  [validate_migration_safety] always returns a verdict, never the
    error dictionary, and the verdict is a warning exactly when the file
    name, in upper case, contains "DROP TABLE"; the warnings list is
    non-empty exactly then. *)
Theorem migration_warns_iff_name_says_drop_table
    (migration_file project_id : string) (c : Clock) :
  exists d c' status warnings,
    validate_migration_safety migration_file project_id c = (Ok d, c') /\
    dict_get "error" d = None /\
    dict_get "status" d = Some (VStr status) /\
    dict_get "warnings" d = Some (VList warnings) /\
    (status = "WARNING" \/ status = "SAFE") /\
    (status = "WARNING" <-> warnings <> []) /\
    (status = "WARNING" <->
     exists pre post,
       Supabase.upper migration_file = pre ++ "DROP TABLE" ++ post).
Proof.
  rewrite validate_migration_safety_result.
  pose proof (is_substring_spec "DROP TABLE" (Supabase.upper migration_file))
    as Hspec.
  destruct (is_substring "DROP TABLE" (Supabase.upper migration_file)).
  - do 4 eexists. repeat split; try reflexivity; try discriminate; auto.
    intros _. now apply Hspec.
  - do 4 eexists. repeat split; try reflexivity; try discriminate; auto.
    + intros H. now contradiction H.
    + intros H. apply Hspec in H. discriminate H.
Qed.

(** X22.  The check reads the name of the migration file, and both phrases
    it looks for have a blank in them: a file name without a blank is
    always rated SAFE, with no warning and no recommendation. *)
Theorem name_without_blank_is_always_safe
    (migration_file project_id : string) (c : Clock) :
  Supabase.has_space migration_file = false ->
  validate_migration_safety migration_file project_id c =
    (Ok [ ("migration_file", VStr migration_file);
          ("project_id", VStr project_id);
          ("validated_at", VStr (fst (now_isoformat c)));
          ("status", VStr "SAFE");
          ("warnings", VList []);
          ("recommendations", VList []) ],
     snd (now_isoformat c)).
Proof.
  intros Hblank. rewrite validate_migration_safety_result.
  assert (Hnot : forall phrase,
    Supabase.has_space phrase = true ->
    is_substring phrase (Supabase.upper migration_file) = false).
  { intros phrase Hphrase.
    destruct (is_substring phrase (Supabase.upper migration_file)) eqn:Hsub;
      [| reflexivity].
    apply is_substring_spec in Hsub as (pre & post & Hsplit).
    apply (f_equal Supabase.has_space) in Hsplit.
    rewrite has_space_upper, Hblank, !has_space_append, Hphrase in Hsplit.
    now rewrite orb_true_r in Hsplit. }
  now rewrite !Hnot by reflexivity.
Qed.

End MigrationProperties.

Lemma name_without_blank_is_always_safe_witness :
  Supabase.validate_migration_safety nat sample_clock
    "migrations/20240101_drop_table_users.sql" "zeopoimfsxdidkyiucsr" 0 =
    (Ok [ ("migration_file", VStr "migrations/20240101_drop_table_users.sql");
          ("project_id", VStr "zeopoimfsxdidkyiucsr");
          ("validated_at", VStr (fst (sample_clock 0)));
          ("status", VStr "SAFE");
          ("warnings", VList []);
          ("recommendations", VList []) ],
     snd (sample_clock 0)).
Proof.
  apply (name_without_blank_is_always_safe nat sample_clock
           "migrations/20240101_drop_table_users.sql" "zeopoimfsxdidkyiucsr" 0).
  reflexivity.
Defined.

(** * Properties of the installation script *)

Section InstallerProperties.

Variable Shell : Type.
Variable subprocess_run : string -> Shell -> Installer.run_outcome * Shell.
Variable fmt_int : Z -> string.

Abbreviation run_command := (Installer.run_command Shell subprocess_run).
Abbreviation install_each := (Installer.install_each Shell subprocess_run).
Abbreviation pip_install := (fun dep : string => "pip install " ++ dep).

(** [run_command] hands its command to the shell once, and answers with
    whether it exited with status zero. *)
Lemma run_command_runs_once (command description : string)
    (m m' : Installer.machine Shell) (ok : bool) :
  run_command command description m = (Ok ok, m') ->
  Installer.ran m' = (Installer.ran m ++ [(command, ok)])%list.
Proof.
  unfold Installer.run_command, Installer.run, Installer.print.
  unfold_comp. cbn [Installer.shell Installer.ran Installer.printed].
  destruct (subprocess_run command (Installer.shell m)) as [outcome sh].
  destruct outcome as [| message out err | e];
    cbn [Installer.shell Installer.ran Installer.printed].
  - now intros [= <- <-].
  - destruct (String.eqb out ""); destruct (String.eqb err "");
      cbn [negb Installer.shell Installer.ran Installer.printed];
      now intros [= <- <-].
  - discriminate.
Qed.

(** X23.  [install_dependencies] installs in order and stops at the first
    failure: when it returns [True] it has run [pip install] for every
    package, each with exit status zero; when it returns [False] it has run
    the packages up to the first one that failed, and none after it. *)
Theorem install_stops_at_first_failure
    (deps : list string) (m m' : Installer.machine Shell) (installed : bool) :
  install_each deps m = (Ok installed, m') ->
  if installed then
    Installer.ran m' =
      (Installer.ran m ++ map (fun dep => (pip_install dep, true)) deps)%list
  else
    exists done dep rest,
      deps = (done ++ dep :: rest)%list /\
      Installer.ran m' =
        (Installer.ran m ++ map (fun dep => (pip_install dep, true)) done
           ++ [(pip_install dep, false)])%list.
Proof.
  revert m. induction deps as [| dep deps IH]; intros m;
    cbn [Installer.install_each].
  - intros [= <- <-]. simpl. now rewrite app_nil_r.
  - unfold Comp.bind at 1.
    destruct (run_command ("pip install " ++ dep) ("Installing " ++ dep) m)
      as [[ok | e] m1] eqn:Hrun; [| discriminate].
    apply run_command_runs_once in Hrun.
    destruct ok; cbn [negb].
    + intros Hrest. apply IH in Hrest. destruct installed.
      * rewrite Hrest, Hrun, <- app_assoc. reflexivity.
      * destruct Hrest as (done & dep' & rest & -> & Hran).
        exists (dep :: done), dep', rest. split; [reflexivity |].
        rewrite Hran, Hrun, <- app_assoc. reflexivity.
    + intros [= <- <-]. exists [], dep, deps. split; [reflexivity |].
      now rewrite Hrun.
Qed.


End InstallerProperties.

Lemma install_stops_at_first_failure_witness :
  exists done dep rest,
    Installer.dependencies = (done ++ dep :: rest)%list /\
    Installer.ran
      (snd (Installer.install_each nat sample_shell Installer.dependencies
              sample_machine)) =
      (Installer.ran sample_machine
         ++ map (fun dep : string => (("pip install " ++ dep)%string, true)) done
         ++ [(("pip install " ++ dep)%string, false)])%list.
Proof.
  apply (install_stops_at_first_failure nat sample_shell
           Installer.dependencies sample_machine
           (snd (Installer.install_each nat sample_shell Installer.dependencies
                   sample_machine))
           false).
  reflexivity.
Defined.
